(** * Upload handlers of the media service: video and thumbnail

    A shallow embedding of [handler_upload_video.go] (the video handler,
    with [getVideoAspectRatio] and [processVideoForFastStart]) and of the
    thumbnail handler, followed by the properties of these handlers.

    The handlers are straight-line Go code with early returns and deferred
    clean-up.  They are embedded in a small state-and-early-return monad
    over a [World] (record store, local disk, object store) and a stack of
    deferred calls.  Every call into the operating system or into an
    external tool is resolved by an [Env], which fixes the outcome of that
    call for the request at hand; the library functions the handlers call
    (identifier parsing, bearer-token extraction, token validation, media
    type parsing, path joining) are the fields of a [Lib]. *)

From Stdlib Require Import ZArith NArith String Ascii List Lia Floats.SpecFloat.
From stdpp Require Import base option list gmap strings.
Import ListNotations.

Open Scope Z_scope.

(* ===================================================================== *)
(** ** Go values: errors, results, bytes *)
(* ===================================================================== *)

(** A Go [error] value, kept as its message. *)
Definition error := string.

(** A Go [(T, error)] pair: either the value or the error. *)
Inductive Result (A : Type) : Type :=
| Ok (a : A)
| Err (e : error).
Arguments Ok {A} a.
Arguments Err {A} e.

Definition is_Ok {A} (r : Result A) : bool :=
  match r with Ok _ => true | Err _ => false end.

Abbreviation byte := Byte.byte.

(* ===================================================================== *)
(** ** [fmt.Sprintf("%x", []byte)]: lower-case hexadecimal *)
(* ===================================================================== *)

Module Hex.

Definition digit (n : N) : ascii :=
  match n with
  | 0 => "0" | 1 => "1" | 2 => "2" | 3 => "3" | 4 => "4" | 5 => "5"
  | 6 => "6" | 7 => "7" | 8 => "8" | 9 => "9" | 10 => "a" | 11 => "b"
  | 12 => "c" | 13 => "d" | 14 => "e" | _ => "f"
  end%N%char.

(** Two digits per byte, most significant nibble first. *)
Fixpoint encode (bs : list byte) : string :=
  match bs with
  | [] => EmptyString
  | b :: rest =>
      let n := Byte.to_N b in
      String (digit (N.shiftr n 4)) (String (digit (N.land n 15)) (encode rest))
  end.

Definition is_digit (c : ascii) : bool :=
  let n := N_of_ascii c in
  ((48 <=? n) && (n <=? 57) || (97 <=? n) && (n <=? 102))%N.

Fixpoint all_digits (s : string) : bool :=
  match s with
  | EmptyString => true
  | String c rest => is_digit c && all_digits rest
  end.

End Hex.

(* ===================================================================== *)
(** ** [base64.RawURLEncoding.EncodeToString]: URL-safe alphabet, no padding *)
(* ===================================================================== *)

Module Base64.

(** The URL-safe alphabet of RFC 4648, section 5. *)
Definition encodeURL : list ascii :=
  list_ascii_of_string
    "ABCDEFGHIJKLMNOPQRSTUVWXYZabcdefghijklmnopqrstuvwxyz0123456789-_".

Definition sextet (n : N) : ascii :=
  nth (N.to_nat (N.land n 63)) encodeURL "A"%char.

(** Three source bytes give four characters; a remainder of one byte
    gives two characters and a remainder of two bytes gives three, with
    no padding character. *)
Fixpoint EncodeToString (src : list byte) : string :=
  match src with
  | [] => EmptyString
  | [b0] =>
      let v := N.shiftl (Byte.to_N b0) 16 in
      String (sextet (N.shiftr v 18)) (String (sextet (N.shiftr v 12)) EmptyString)
  | [b0; b1] =>
      let v := N.lor (N.shiftl (Byte.to_N b0) 16) (N.shiftl (Byte.to_N b1) 8) in
      String (sextet (N.shiftr v 18))
        (String (sextet (N.shiftr v 12)) (String (sextet (N.shiftr v 6)) EmptyString))
  | b0 :: b1 :: b2 :: rest =>
      let v := N.lor (N.lor (N.shiftl (Byte.to_N b0) 16) (N.shiftl (Byte.to_N b1) 8))
                 (Byte.to_N b2) in
      String (sextet (N.shiftr v 18))
        (String (sextet (N.shiftr v 12))
           (String (sextet (N.shiftr v 6))
              (String (sextet v) (EncodeToString rest))))
  end.

Definition is_url_char (c : ascii) : bool :=
  let n := N_of_ascii c in
  ((65 <=? n) && (n <=? 90) || (97 <=? n) && (n <=? 122)
   || (48 <=? n) && (n <=? 57) || (n =? 45) || (n =? 95))%N.

Fixpoint all_url_chars (s : string) : bool :=
  match s with
  | EmptyString => true
  | String c rest => is_url_char c && all_url_chars rest
  end.

End Base64.

(* ===================================================================== *)
(** ** [float64]: IEEE 754 binary64 *)
(* ===================================================================== *)

Module Float64.

Definition prec : Z := 53.
Definition emax : Z := 1024.

Abbreviation float64 := spec_float.

(** The conversion [float64(n)] of an [int]: round to nearest, ties to
    even. *)
Definition of_int (n : Z) : float64 := binary_normalize prec emax n 0 false.

Definition div : float64 -> float64 -> float64 := SFdiv prec emax.
Definition sub : float64 -> float64 -> float64 := SFsub prec emax.

(** [math.Abs]. *)
Definition Abs : float64 -> float64 := SFabs.

Definition ltb : float64 -> float64 -> bool := SFltb.
Definition leb : float64 -> float64 -> bool := SFleb.
Definition gtb (x y : float64) : bool := SFltb y x.

(** A constant expression [p / q] of two integer-valued literals: Go
    evaluates it exactly and rounds once, to the nearest [float64], which
    is what the correctly rounded quotient of the two exact operands is. *)
Definition const (p q : Z) : float64 := div (of_int p) (of_int q).

End Float64.

Import Float64.

(* ===================================================================== *)
(** ** The format prober *)
(* ===================================================================== *)

Record videoStream := {
  Width : Z;
  Height : Z
}.

Record ffprobeOutput := {
  Streams : list videoStream
}.

(** What running [ffprobe] on a file gives: [cmd.Run()] fails, or it exits
    normally and [json.Unmarshal] of its output either fails or fills an
    [ffprobeOutput]. *)
Inductive ProbeRun :=
| ProbeRunErr (e : error)
| ProbeStdout (decoded : Result ffprobeOutput).

Definition tolerance : float64 := const 1 100.

(** [getVideoAspectRatio(filePath)], given what the run of [ffprobe] on
    [filePath] gives.  [Width] and [Height] are Go [int]s; the conversion
    to [float64] is defined on every integer. *)
Definition getVideoAspectRatio (run : ProbeRun) : Result string :=
  match run with
  | ProbeRunErr e => Err e
  | ProbeStdout (Err e) => Err e
  | ProbeStdout (Ok probeOutput) =>
      match Streams probeOutput with
      | [] => Ok "other"%string
      | s0 :: _ =>
          let width := of_int (Width s0) in
          let height := of_int (Height s0) in
          let aspectRatio := div width height in
          if gtb aspectRatio (const 1 1) then
            if ltb (Abs (sub aspectRatio (const 16 9))) tolerance
            then Ok "landscape"%string
            else Ok "other"%string
          else
            if ltb (Abs (sub aspectRatio (const 9 16))) tolerance
            then Ok "portrait"%string
            else Ok "other"%string
      end
  end.

(** The classification as the specification words it: [other] without a
    stream; otherwise, with [ratio = width / height], [landscape] when
    [ratio > 1] and [|ratio - 16/9| < 0.01], [portrait] when [ratio <= 1]
    and [|ratio - 9/16| < 0.01], and [other] in every remaining case. *)
Definition classification_spec (out : ffprobeOutput) : string :=
  match Streams out with
  | [] => "other"
  | s0 :: _ =>
      let ratio := div (of_int (Width s0)) (of_int (Height s0)) in
      if gtb ratio (const 1 1) && ltb (Abs (sub ratio (const 16 9))) (const 1 100)
      then "landscape"
      else if leb ratio (const 1 1) && ltb (Abs (sub ratio (const 9 16))) (const 1 100)
      then "portrait"
      else "other"
  end%string.

Definition one_stream (w h : Z) : ProbeRun :=
  ProbeStdout (Ok {| Streams := [ {| Width := w; Height := h |} ] |}).

(* ===================================================================== *)
(** ** Records, configuration, requests and responses *)
(* ===================================================================== *)

(** A [uuid.UUID]: a 128-bit identifier, compared only for equality. *)
Definition UUID := N.

(** Modelled from the spec: the [database.Video] record lives in the
    record-store package; the handlers read [UserID] and overwrite the two
    URL fields, which the record store keeps under the record's [ID]. *)
Record Video := {
  ID : UUID;
  UserID : UUID;
  ThumbnailURL : option string;
  VideoURL : option string
}.

(** The fields of [apiConfig] the two handlers read.  Its [db] and
    [s3Client] are handles on the shared stores, which are part of the
    [World] below. *)
Record apiConfig := {
  jwtSecret : string;
  s3Bucket : string;
  s3Region : string;
  assetsRoot : string;
  port : string
}.

(** One file part of a parsed multipart form: [header.Header.Get
    ("Content-Type")], which is the empty string when the part declares
    none, and the bytes of the part. *)
Record Part := {
  ContentType : string;
  Data : list byte
}.

(** An incoming request.  [BodyLen] is the number of bytes of the
    multipart body that a parser has to read, up to its closing boundary:
    preamble, boundaries, part headers and every part, also those the
    handler does not ask for.  [Form] is what that body parses to when it
    is read in full: an error for a malformed body, or its file parts by
    field name. *)
Record Request := {
  PathValue_videoID : string;
  Header : list (string * string);
  BodyLen : Z;
  Form : Result (list (string * Part))
}.

Inductive Payload :=
| ErrorBody (msg : string)
| VideoBody (v : Video).

Record Response := {
  StatusCode : Z;
  Body : Payload
}.

Definition StatusOK : Z := 200.
Definition StatusBadRequest : Z := 400.
Definition StatusUnauthorized : Z := 401.
Definition StatusForbidden : Z := 403.
Definition StatusNotFound : Z := 404.
Definition StatusInternalServerError : Z := 500.

(** The library functions the handlers call.  [uuid.Parse],
    [mime.ParseMediaType] (its media type result) and [filepath.Join] are
    third-party or standard-library code; [auth.GetBearerToken] and
    [auth.ValidateJWT] belong to the authenticator. *)
Record Lib := {
  uuid_Parse : string -> Result UUID;
  auth_GetBearerToken : list (string * string) -> Result string;
  auth_ValidateJWT : string -> string -> Result UUID;
  mime_ParseMediaType : string -> Result string;
  filepath_Join : string -> string -> string
}.

(* ===================================================================== *)
(** ** The world the handlers act on *)
(* ===================================================================== *)

Record Object := {
  ObjBody : list byte;
  ObjContentType : string
}.

(** The record store, the local file system (path to contents) and the
    object store (bucket and key to object). *)
Record World := {
  db : gmap UUID Video;
  disk : gmap string (list byte);
  s3 : gmap (string * string) Object
}.

Definition set_db (f : gmap UUID Video -> gmap UUID Video) (w : World) : World :=
  {| db := f (db w); disk := disk w; s3 := s3 w |}.
Definition set_disk (f : gmap string (list byte) -> gmap string (list byte))
    (w : World) : World :=
  {| db := db w; disk := f (disk w); s3 := s3 w |}.
Definition set_s3 (f : gmap (string * string) Object -> gmap (string * string) Object)
    (w : World) : World :=
  {| db := db w; disk := disk w; s3 := f (s3 w) |}.

(** How an [io.Copy] ends: all bytes written, or an error after the first
    [written] bytes. *)
Inductive CopyOutcome :=
| CopyOk
| CopyErr (written : nat) (e : error).

(** How a run of [ffmpeg] ends: exit status zero with the output file
    written, or a failure that may leave a partially written output file. *)
Inductive FfmpegRun :=
| FfmpegOk (output : list byte)
| FfmpegErr (partial : option (list byte)) (e : error).

(** The outcome, for the request at hand, of each call that leaves the
    process.  [CreateTemp_result] is the name [os.CreateTemp] settles on;
    [rand_source] is the stream [rand.Read] draws from. *)
Record Env := {
  CreateTemp_result : Result string;
  Copy_result : CopyOutcome;
  Seek_result : Result unit;
  ffmpeg_run : string -> FfmpegRun;
  ffprobe_run : string -> ProbeRun;
  rand_source : Result (nat -> byte);
  Open_result : Result unit;
  PutObject_result : Result unit;
  UpdateVideo_result : Result unit;
  Create_result : Result unit
}.

(* ===================================================================== *)
(** ** The handler monad: state, early return, deferred calls *)
(* ===================================================================== *)

Inductive Deferred :=
| Defer_Close
| Defer_Remove (name : string).

Record HState := {
  world : World;
  defers : list Deferred
}.

(** A computation either goes on with a value ([inl]) or has written its
    response and returned ([inr]). *)
Definition handler (A : Type) : Type := HState -> HState * (A + Response).

Definition ret {A} (a : A) : handler A := fun s => (s, inl a).

Definition bind {A B} (m : handler A) (k : A -> handler B) : handler B :=
  fun s =>
    match m s with
    | (s', inl a) => k a s'
    | (s', inr resp) => (s', inr resp)
    end.

Notation "x <-- m ;; k" := (bind m (fun x => k))
  (at level 100, m at next level, right associativity).

(** [v, err := op; if err != nil { respond; return }]. *)
Definition orelse {A} (m : handler (Result A)) (resp : handler A) : handler A :=
  bind m (fun r => match r with Ok a => ret a | Err _ => resp end).

Notation "m ;; k" := (bind m (fun _ => k))
  (at level 100, right associativity).

Notation "m ?: resp" := (orelse m resp) (at level 70, no associativity).

Definition pure {A} (r : Result A) : handler (Result A) := ret r.

Definition get_world : handler World := fun s => (s, inl (world s)).

Definition modify (f : World -> World) : handler unit :=
  fun s => ({| world := f (world s); defers := defers s |}, inl tt).

(** [defer f()]: push on the stack of deferred calls. *)
Definition defer (d : Deferred) : handler unit :=
  fun s => ({| world := world s; defers := d :: defers s |}, inl tt).

(** Modelled from the spec: [respondWithError] and [respondWithJSON] are
    helpers of the server package; they write a terminal response with a
    status code and a user-facing message, or the serialized record. *)
Definition respondWithError {A} (code : Z) (msg : string) : handler A :=
  fun s => (s, inr {| StatusCode := code; Body := ErrorBody msg |}).

Definition respondWithJSON {A} (code : Z) (v : Video) : handler A :=
  fun s => (s, inr {| StatusCode := code; Body := VideoBody v |}).

Definition run_deferred (d : Deferred) (w : World) : World :=
  match d with
  | Defer_Close => w
  | Defer_Remove name => set_disk (delete name) w
  end.

(** Deferred calls run when the function returns, last deferred first. *)
Fixpoint run_defers (ds : list Deferred) (w : World) : World :=
  match ds with
  | [] => w
  | d :: rest => run_defers rest (run_deferred d w)
  end.

Definition run (h : handler Response) (w : World) : World * Response :=
  match h {| world := w; defers := [] |} with
  | (s, inl resp) | (s, inr resp) => (run_defers (defers s) (world s), resp)
  end.

(* ===================================================================== *)
(** ** Calls on the world *)
(* ===================================================================== *)

(** [os.CreateTemp]: a new, empty file under a name that was not in use. *)
Definition os_CreateTemp (env : Env) : handler (Result string) :=
  match CreateTemp_result env with
  | Err e => ret (Err e)
  | Ok name =>
      w <-- get_world ;;
      match disk w !! name with
      | Some _ => ret (Err "file exists"%string)
      | None => modify (set_disk <[name := []]>) ;; ret (Ok name)
      end
  end.

(** [os.Create]: the file is created, or truncated when it exists. *)
Definition os_Create (env : Env) (name : string) : handler (Result unit) :=
  match Create_result env with
  | Err e => ret (Err e)
  | Ok _ => modify (set_disk <[name := []]>) ;; ret (Ok tt)
  end.

(** [io.Copy(dst, src)] into a file that was just created. *)
Definition io_Copy (env : Env) (dst : string) (src : list byte) : handler (Result unit) :=
  match Copy_result env with
  | CopyOk => modify (set_disk <[dst := src]>) ;; ret (Ok tt)
  | CopyErr written e => modify (set_disk <[dst := take written src]>) ;; ret (Err e)
  end.

(** [os.Open] for reading. *)
Definition os_Open (env : Env) (name : string) : handler (Result (list byte)) :=
  match Open_result env with
  | Err e => ret (Err e)
  | Ok _ =>
      w <-- get_world ;;
      match disk w !! name with
      | Some contents => ret (Ok contents)
      | None => ret (Err "no such file or directory"%string)
      end
  end.

(** [cmd.Run()] of [ffmpeg -i input ... output]. *)
Definition exec_ffmpeg (env : Env) (input output : string) : handler (Result unit) :=
  match ffmpeg_run env input with
  | FfmpegOk out => modify (set_disk <[output := out]>) ;; ret (Ok tt)
  | FfmpegErr (Some part) e => modify (set_disk <[output := part]>) ;; ret (Err e)
  | FfmpegErr None e => ret (Err e)
  end.

(** Modelled from the spec: the object publisher's
    [put(bucket, key, bytes, content-type) -> ok | error]. *)
Definition s3_PutObject (env : Env) (bucket key : string) (body : list byte)
    (contentType : string) : handler (Result unit) :=
  match PutObject_result env with
  | Err e => ret (Err e)
  | Ok _ =>
      modify (set_s3 <[(bucket, key) :=
                         {| ObjBody := body; ObjContentType := contentType |}]>) ;;
      ret (Ok tt)
  end.

(** Modelled from the spec: the record store's
    [get(id) -> record | not-found-error]. *)
Definition db_GetVideo (id : UUID) : handler (Result Video) :=
  w <-- get_world ;;
  match db w !! id with
  | Some v => ret (Ok v)
  | None => ret (Err "sql: no rows in result set"%string)
  end.

(** Modelled from the spec: the record store's
    [update(record) -> ok | error]. *)
Definition db_UpdateVideo (env : Env) (v : Video) : handler (Result unit) :=
  match UpdateVideo_result env with
  | Err e => ret (Err e)
  | Ok _ => modify (set_db <[ID v := v]>) ;; ret (Ok tt)
  end.

(** [rand.Read] on a slice of [n] bytes fills all of it or fails. *)
Definition rand_Read (env : Env) (n : nat) : Result (list byte) :=
  match rand_source env with
  | Err e => Err e
  | Ok f => Ok (map f (seq 0 n))
  end.

(* ===================================================================== *)
(** ** Multipart intake *)
(* ===================================================================== *)

(** [r.ParseMultipartForm(maxMemory)] on a body that is, or is not,
    wrapped by [http.MaxBytesReader(w, r.Body, n)] ([limit = Some n]).  The
    body is read through to its closing boundary; a wrapped body fails the
    read once more than [n] bytes are asked for.  [maxMemory] only decides
    how much of the file parts is held in memory, the remainder going to
    temporary files that the server removes once the handler has returned:
    it puts no bound on the body. *)
Definition ParseMultipartForm (limit : option Z) (maxMemory : Z) (r : Request)
    : Result (list (string * Part)) :=
  match limit with
  | Some n =>
      if n <? BodyLen r then Err "http: request body too large"%string else Form r
  | None => Form r
  end.

(** The first file part under a field name, [http.ErrMissingFile] when
    there is none. *)
Fixpoint first_file (key : string) (form : list (string * Part)) : Result Part :=
  match form with
  | [] => Err "http: no such file"%string
  | (k, p) :: rest => if decide (k = key) then Ok p else first_file key rest
  end.

Definition defaultMaxMemory : Z := Z.shiftl 32 20.

(** [r.FormFile(key)] on a request whose form is not parsed yet. *)
Definition FormFile (limit : option Z) (r : Request) (key : string) : Result Part :=
  match ParseMultipartForm limit defaultMaxMemory r with
  | Err e => Err e
  | Ok form => first_file key form
  end.

(* ===================================================================== *)
(** ** The stream repackager *)
(* ===================================================================== *)

Definition processVideoForFastStart (env : Env) (filePath : string)
    : handler (Result string) :=
  let outputFilePath := (filePath +:+ ".processed")%string in
  r <-- exec_ffmpeg env filePath outputFilePath ;;
  match r with
  | Err e => ret (Err e)
  | Ok _ => ret (Ok outputFilePath)
  end.

(* ===================================================================== *)
(** ** The video handler *)
(* ===================================================================== *)

Definition handlerUploadVideo_body (lib : Lib) (cfg : apiConfig) (env : Env)
    (r : Request) : handler Response :=
  let maxUploadSize := Z.shiftl 1 30 in
  let body := Some maxUploadSize in
  videoID <-- pure (uuid_Parse lib (PathValue_videoID r))
    ?: respondWithError StatusBadRequest "Invalid ID" ;;
  token <-- pure (auth_GetBearerToken lib (Header r))
    ?: respondWithError StatusUnauthorized "Couldn't find JWT" ;;
  userID <-- pure (auth_ValidateJWT lib token (jwtSecret cfg))
    ?: respondWithError StatusUnauthorized "Couldn't validate JWT" ;;
  video <-- db_GetVideo videoID
    ?: respondWithError StatusInternalServerError "Couldn't find video" ;;
  if decide (UserID video <> userID) then
    respondWithError StatusUnauthorized "Not authorized to upload for this video"
  else
  file <-- pure (FormFile body r "video")
    ?: respondWithError StatusBadRequest "Unable to parse video file" ;;
  defer Defer_Close ;;
  let contentType := ContentType file in
  if decide (contentType = ""%string) then
    respondWithError StatusBadRequest "Missing Content-Type for video"
  else
  mediaType <-- pure (mime_ParseMediaType lib contentType)
    ?: respondWithError StatusBadRequest "Invalid file type. Only MP4 videos are allowed." ;;
  if decide (mediaType <> "video/mp4"%string) then
    respondWithError StatusBadRequest "Invalid file type. Only MP4 videos are allowed."
  else
  tempFile <-- os_CreateTemp env
    ?: respondWithError StatusInternalServerError "Failed to create temporary file" ;;
  defer (Defer_Remove tempFile) ;;
  defer Defer_Close ;;
  io_Copy env tempFile (Data file)
    ?: respondWithError StatusInternalServerError "Failed to copy video to temporary file" ;;
  pure (Seek_result env)
    ?: respondWithError StatusInternalServerError "Failed to reset file pointer" ;;
  processedFilePath <-- processVideoForFastStart env tempFile
    ?: respondWithError StatusInternalServerError "Failed to process video for fast start" ;;
  defer (Defer_Remove processedFilePath) ;;
  aspectRatio <-- pure (getVideoAspectRatio (ffprobe_run env tempFile))
    ?: respondWithError StatusInternalServerError "Failed to determine video aspect ratio" ;;
  randomBytes <-- pure (rand_Read env 16)
    ?: respondWithError StatusInternalServerError "Failed to generate random key" ;;
  let fileKey := (aspectRatio +:+ "/" +:+ Hex.encode randomBytes +:+ ".mp4")%string in
  processedFile <-- os_Open env processedFilePath
    ?: respondWithError StatusInternalServerError "Failed to open processed file" ;;
  defer Defer_Close ;;
  s3_PutObject env (s3Bucket cfg) fileKey processedFile mediaType
    ?: respondWithError StatusInternalServerError "Failed to upload video to S3" ;;
  let videoURL :=
    ("https://" +:+ s3Bucket cfg +:+ ".s3." +:+ s3Region cfg +:+ ".amazonaws.com/"
       +:+ fileKey)%string in
  let video :=
    {| ID := ID video; UserID := UserID video; ThumbnailURL := ThumbnailURL video;
       VideoURL := Some videoURL |} in
  db_UpdateVideo env video
    ?: respondWithError StatusInternalServerError "Failed to update video metadata" ;;
  respondWithJSON StatusOK video.

Definition handlerUploadVideo (lib : Lib) (cfg : apiConfig) (env : Env)
    (r : Request) (w : World) : World * Response :=
  run (handlerUploadVideo_body lib cfg env r) w.

(* ===================================================================== *)
(** ** The thumbnail handler *)
(* ===================================================================== *)

Definition handlerUploadThumbnail_body (lib : Lib) (cfg : apiConfig) (env : Env)
    (r : Request) : handler Response :=
  videoID <-- pure (uuid_Parse lib (PathValue_videoID r))
    ?: respondWithError StatusBadRequest "Invalid ID" ;;
  token <-- pure (auth_GetBearerToken lib (Header r))
    ?: respondWithError StatusUnauthorized "Couldn't find JWT" ;;
  userID <-- pure (auth_ValidateJWT lib token (jwtSecret cfg))
    ?: respondWithError StatusUnauthorized "Couldn't validate JWT" ;;
  let maxMemory := Z.shiftl 10 20 in
  form <-- pure (ParseMultipartForm None maxMemory r)
    ?: respondWithError StatusBadRequest "Error parsing form data" ;;
  file <-- pure (first_file "thumbnail" form)
    ?: respondWithError StatusBadRequest "Unable to parse form file" ;;
  defer Defer_Close ;;
  let contentType := ContentType file in
  if decide (contentType = ""%string) then
    respondWithError StatusBadRequest "Missing Content-Type for thumbnail"
  else
  mediaType <-- pure (mime_ParseMediaType lib contentType)
    ?: respondWithError StatusBadRequest "Invalid Content-Type format" ;;
  if decide (mediaType <> "image/jpeg"%string /\ mediaType <> "image/png"%string) then
    respondWithError StatusBadRequest
      "Unsupported file type. Only JPEG and PNG are allowed."
  else
  let extension :=
    if decide (mediaType = "image/jpeg"%string) then ".jpg"%string
    else if decide (mediaType = "image/png"%string) then ".png"%string
    else ""%string in
  randomBytes <-- pure (rand_Read env 32)
    ?: respondWithError StatusInternalServerError "Failed to generate random filename" ;;
  let randomFileName := Base64.EncodeToString randomBytes in
  let filePath := filepath_Join lib (assetsRoot cfg) (randomFileName +:+ extension)%string in
  os_Create env filePath
    ?: respondWithError StatusInternalServerError "Failed to create file on disk" ;;
  defer Defer_Close ;;
  io_Copy env filePath (Data file)
    ?: respondWithError StatusInternalServerError "Failed to save file to disk" ;;
  let thumbnailURL :=
    ("http://localhost:" +:+ port cfg +:+ "/assets/" +:+ randomFileName
       +:+ extension)%string in
  video <-- db_GetVideo videoID
    ?: respondWithError StatusInternalServerError "Couldn't find video" ;;
  if decide (UserID video <> userID) then
    respondWithError StatusUnauthorized "Not authorized to update this video"
  else
  let video :=
    {| ID := ID video; UserID := UserID video; ThumbnailURL := Some thumbnailURL;
       VideoURL := VideoURL video |} in
  db_UpdateVideo env video
    ?: respondWithError StatusInternalServerError "Couldn't update video" ;;
  respondWithJSON StatusOK video.

Definition handlerUploadThumbnail (lib : Lib) (cfg : apiConfig) (env : Env)
    (r : Request) (w : World) : World * Response :=
  run (handlerUploadThumbnail_body lib cfg env r) w.

(* ===================================================================== *)
(** ** A concrete deployment, used to run the handlers *)
(* ===================================================================== *)

Module Demo.

Definition lib : Lib := {|
  uuid_Parse s :=
    if decide (s = "00000000-0000-4000-8000-000000000001"%string) then Ok 1%N
    else if decide (s = "00000000-0000-4000-8000-000000000002"%string) then Ok 2%N
    else Err "invalid UUID"%string;
  auth_GetBearerToken hs :=
    match hs with
    | (k, v) :: _ =>
        if decide (k = "Authorization"%string /\ substring 0 7 v = "Bearer "%string)
        then Ok (substring 7 (String.length v - 7) v)
        else Err "malformed authorization header"%string
    | [] => Err "no auth header included in request"%string
    end;
  auth_ValidateJWT token secret :=
    if decide (token = "alice.jwt"%string) then Ok 100%N
    else if decide (token = "bob.jwt"%string) then Ok 200%N
    else Err "token is malformed"%string;
  mime_ParseMediaType v :=
    if decide (v = "video/mp4"%string \/ v = "image/jpeg"%string
               \/ v = "image/png"%string \/ v = "image/gif"%string)
    then Ok v else Err "mime: no media type"%string;
  filepath_Join dir name := (dir +:+ "/" +:+ name)%string
|}.

Definition cfg : apiConfig := {|
  jwtSecret := "secret";
  s3Bucket := "tubely";
  s3Region := "us-east-2";
  assetsRoot := "./assets";
  port := "8091"
|}.

Definition vid1 : Video :=
  {| ID := 1%N; UserID := 100%N; ThumbnailURL := None; VideoURL := None |}.

Definition w0 : World :=
  {| db := {[ 1%N := vid1 ]}; disk := ∅; s3 := ∅ |}.

Definition payload : list byte := [Byte.x00; Byte.x01; Byte.x02; Byte.x03].

(** An environment in which every call succeeds: [ffmpeg] repackages to
    the bytes [[x03; x02]] and [ffprobe] reports one 1920x1080 stream. *)
Definition env_ok : Env := {|
  CreateTemp_result := Ok "/tmp/tubely-upload-42.mp4"%string;
  Copy_result := CopyOk;
  Seek_result := Ok tt;
  ffmpeg_run _ := FfmpegOk [Byte.x03; Byte.x02];
  ffprobe_run _ :=
    ProbeStdout (Ok {| Streams := [ {| Width := 1920; Height := 1080 |} ] |});
  rand_source := Ok (fun i => match Byte.of_nat i with Some b => b | None => Byte.x00 end);
  Open_result := Ok tt;
  PutObject_result := Ok tt;
  UpdateVideo_result := Ok tt;
  Create_result := Ok tt
|}.

(** The same, except that [ffmpeg] exits with an error after it has
    written the first byte of its output. *)
Definition env_ffmpeg_fails : Env := {|
  CreateTemp_result := CreateTemp_result env_ok;
  Copy_result := CopyOk;
  Seek_result := Ok tt;
  ffmpeg_run _ := FfmpegErr (Some [Byte.x03]) "exit status 1"%string;
  ffprobe_run := ffprobe_run env_ok;
  rand_source := rand_source env_ok;
  Open_result := Ok tt;
  PutObject_result := Ok tt;
  UpdateVideo_result := Ok tt;
  Create_result := Ok tt
|}.

(** As [env_ok], except that the record store refuses the update. *)
Definition env_update_fails : Env := {|
  CreateTemp_result := CreateTemp_result env_ok;
  Copy_result := CopyOk;
  Seek_result := Ok tt;
  ffmpeg_run := ffmpeg_run env_ok;
  ffprobe_run := ffprobe_run env_ok;
  rand_source := rand_source env_ok;
  Open_result := Ok tt;
  PutObject_result := Ok tt;
  UpdateVideo_result := Err "database is locked"%string;
  Create_result := Ok tt
|}.

(** As [env_ok], with other random bytes. *)
Definition env_ok2 : Env := {|
  CreateTemp_result := Ok "/tmp/tubely-upload-43.mp4"%string;
  Copy_result := CopyOk;
  Seek_result := Ok tt;
  ffmpeg_run := ffmpeg_run env_ok;
  ffprobe_run := ffprobe_run env_ok;
  rand_source := Ok (fun _ => Byte.xff);
  Open_result := Ok tt;
  PutObject_result := Ok tt;
  UpdateVideo_result := Ok tt;
  Create_result := Ok tt
|}.

Definition request (id : string) (hdr : list (string * string)) (len : Z)
    (field mime : string) : Request :=
  {| PathValue_videoID := id;
     Header := hdr;
     BodyLen := len;
     Form := Ok [ (field, {| ContentType := mime; Data := payload |}) ] |}.

Definition id1 : string := "00000000-0000-4000-8000-000000000001".
Definition alice : list (string * string) := [("Authorization", "Bearer alice.jwt")]%string.

End Demo.

(* ===================================================================== *)
(** ** Vocabulary of the properties *)
(* ===================================================================== *)

Definition is_label (s : string) : Prop :=
  s = "landscape"%string \/ s = "portrait"%string \/ s = "other"%string.

(** The credential gate both handlers run: the bearer token is extracted
    and validated, which gives the caller's identity. *)
Definition authenticate (lib : Lib) (cfg : apiConfig) (r : Request) : Result UUID :=
  match auth_GetBearerToken lib (Header r) with
  | Err e => Err e
  | Ok token => auth_ValidateJWT lib token (jwtSecret cfg)
  end.

Definition error_response (code : Z) (msg : string) : Response :=
  {| StatusCode := code; Body := ErrorBody msg |}.

(** The file part the thumbnail handler takes in. *)
Definition thumbnail_part (r : Request) : Result Part :=
  match ParseMultipartForm None (Z.shiftl 10 20) r with
  | Err e => Err e
  | Ok form => first_file "thumbnail" form
  end.

(** The file part the video handler takes in, from a body capped at
    1 GiB. *)
Definition video_part (r : Request) : Result Part :=
  FormFile (Some (Z.shiftl 1 30)) r "video".

(** What intake turns down: the named part is absent, it declares no
    Content-Type, or its declared media type (a Content-Type that does not
    parse has none) is not an allowed one. *)
Definition intake_rejects (lib : Lib) (allowed : list string) (file : Result Part) : Prop :=
  match file with
  | Err _ => True
  | Ok part =>
      ContentType part = ""%string
      \/ match mime_ParseMediaType lib (ContentType part) with
         | Err _ => True
         | Ok mediaType => mediaType ∉ allowed
         end
  end.


(* ===================================================================== *)
(** ** Vocabulary of the further properties *)
(* ===================================================================== *)

(** The status codes the handlers use. *)
Definition known_status (c : Z) : Prop :=
  c = StatusOK \/ c = StatusBadRequest \/ c = StatusUnauthorized
  \/ c = StatusInternalServerError.

(** The record store keeps every record under its own identifier. *)
Definition db_keyed (w : World) : Prop :=
  forall (id : UUID) (v : Video), db w !! id = Some v -> ID v = id.

(** The record a successful video upload stores and returns. *)
Definition with_VideoURL (url : string) (v : Video) : Video :=
  {| ID := ID v; UserID := UserID v; ThumbnailURL := ThumbnailURL v;
     VideoURL := Some url |}.

(** The record a successful thumbnail upload stores and returns. *)
Definition with_ThumbnailURL (url : string) (v : Video) : Video :=
  {| ID := ID v; UserID := UserID v; ThumbnailURL := Some url;
     VideoURL := VideoURL v |}.

Definition video_key (classification : string) (randomBytes : list byte) : string :=
  (classification +:+ "/" +:+ Hex.encode randomBytes +:+ ".mp4")%string.

Definition video_url (cfg : apiConfig) (key : string) : string :=
  ("https://" +:+ s3Bucket cfg +:+ ".s3." +:+ s3Region cfg +:+ ".amazonaws.com/"
     +:+ key)%string.

Definition thumbnail_url (cfg : apiConfig) (randomBytes : list byte) (extension : string)
    : string :=
  ("http://localhost:" +:+ port cfg +:+ "/assets/"
     +:+ Base64.EncodeToString randomBytes +:+ extension)%string.

(** The value of a lower-case hexadecimal digit. *)
Definition hex_value (c : ascii) : option N :=
  let n := N_of_ascii c in
  if ((48 <=? n) && (n <=? 57))%N then Some (n - 48)%N
  else if ((97 <=? n) && (n <=? 102))%N then Some (n - 87)%N
  else None.

(** A left inverse of [Hex.encode], by which the encoding loses nothing. *)
Fixpoint hex_decode (s : string) : option (list byte) :=
  match s with
  | EmptyString => Some []
  | String hi (String lo rest) =>
      match hex_value hi, hex_value lo, hex_decode rest with
      | Some h, Some l, Some bs =>
          match Byte.of_N (N.lor (N.shiftl h 4) l) with
          | Some b => Some (b :: bs)
          | None => None
          end
      | _, _, _ => None
      end
  | String _ EmptyString => None
  end.

Fixpoint index_of (c : ascii) (l : list ascii) (i : N) : option N :=
  match l with
  | [] => None
  | x :: rest => if Ascii.eqb c x then Some i else index_of c rest (N.succ i)
  end.

(** The six bits a character of the URL-safe alphabet stands for. *)
Definition base64_value (c : ascii) : option N := index_of c Base64.encodeURL 0%N.

Definition base64_quantum (s0 s1 s2 s3 : N) : N :=
  N.lor (N.lor (N.lor (N.shiftl s0 18) (N.shiftl s1 12)) (N.shiftl s2 6)) s3.

(** A left inverse of [Base64.EncodeToString]: four characters give three
    bytes, a remainder of two characters one byte, of three characters two
    bytes. *)
Fixpoint base64_decode (s : string) : option (list byte) :=
  match s with
  | EmptyString => Some []
  | String _ EmptyString => None
  | String c0 (String c1 EmptyString) =>
      match base64_value c0, base64_value c1 with
      | Some s0, Some s1 =>
          let v := base64_quantum s0 s1 0 0 in
          match Byte.of_N (N.shiftr v 16) with
          | Some x => Some [x]
          | None => None
          end
      | _, _ => None
      end
  | String c0 (String c1 (String c2 EmptyString)) =>
      match base64_value c0, base64_value c1, base64_value c2 with
      | Some s0, Some s1, Some s2 =>
          let v := base64_quantum s0 s1 s2 0 in
          match Byte.of_N (N.shiftr v 16), Byte.of_N (N.land (N.shiftr v 8) 255) with
          | Some x, Some y => Some [x; y]
          | _, _ => None
          end
      | _, _, _ => None
      end
  | String c0 (String c1 (String c2 (String c3 rest))) =>
      match base64_value c0, base64_value c1, base64_value c2, base64_value c3,
            base64_decode rest with
      | Some s0, Some s1, Some s2, Some s3, Some bs =>
          let v := base64_quantum s0 s1 s2 s3 in
          match Byte.of_N (N.shiftr v 16), Byte.of_N (N.land (N.shiftr v 8) 255),
                Byte.of_N (N.land v 255) with
          | Some x, Some y, Some z => Some (x :: y :: z :: bs)
          | _, _, _ => None
          end
      | _, _, _, _, _ => None
      end
  end.

Definition all_bytes : list byte :=
  omap (fun n => Byte.of_N (N.of_nat n)) (seq 0 256).

Fixpoint bytes_eqb (l1 l2 : list byte) : bool :=
  match l1, l2 with
  | [], [] => true
  | x :: l1, y :: l2 => Byte.eqb x y && bytes_eqb l1 l2
  | _, _ => false
  end.

Definition decodes_to (o : option (list byte)) (bs : list byte) : bool :=
  match o with
  | Some l => bytes_eqb l bs
  | None => false
  end.

(** The check run on every remainder of one and of two bytes. *)
Definition tail_ok (b0 b1 : byte) : bool :=
  decodes_to (base64_decode (Base64.EncodeToString [b0; b1])) [b0; b1]
  && decodes_to (base64_decode (Base64.EncodeToString [b0])) [b0].

(** The two endpoints, to state what both handlers share. *)
Inductive Endpoint :=
| UploadVideo
| UploadThumbnail.

Definition handle (ep : Endpoint) (lib : Lib) (cfg : apiConfig) (env : Env)
    (r : Request) (w : World) : World * Response :=
  match ep with
  | UploadVideo => handlerUploadVideo lib cfg env r w
  | UploadThumbnail => handlerUploadThumbnail lib cfg env r w
  end.

(** The record an endpoint stores on success: the fetched record with the
    endpoint's URL field overwritten. *)
Definition updated (ep : Endpoint) (url : string) (v : Video) : Video :=
  match ep with
  | UploadVideo => with_VideoURL url v
  | UploadThumbnail => with_ThumbnailURL url v
  end.

Definition leaves_partial (run : FfmpegRun) : bool :=
  match run with
  | FfmpegErr (Some _) _ => true
  | _ => false
  end.

(** The repackaging tool, should the handler get to run it, leaves no
    partial output, and the name of its output is free. *)
Definition repackaging_clean (env : Env) (w : World) : Prop :=
  match CreateTemp_result env with
  | Ok name =>
      disk w !! (name +:+ ".processed")%string = None
      /\ leaves_partial (ffmpeg_run env name) = false
  | Err _ => True
  end.

(** A path that is neither the staging file nor the repackaged file. *)
Definition not_a_temp_file (env : Env) (path : string) : Prop :=
  match CreateTemp_result env with
  | Ok name => path <> name /\ path <> (name +:+ ".processed")%string
  | Err _ => True
  end.

(** The URL a response carries, when it carries a record. *)
Definition response_video_url (resp : Response) : option string :=
  match Body resp with
  | VideoBody v => VideoURL v
  | ErrorBody _ => None
  end.

Definition response_thumbnail_url (resp : Response) : option string :=
  match Body resp with
  | VideoBody v => ThumbnailURL v
  | ErrorBody _ => None
  end.

(** The responses of the thumbnail handler that come after the upload has
    been written to disk. *)
Definition late_thumbnail_failure (resp : Response) : Prop :=
  resp = error_response StatusInternalServerError "Couldn't find video"
  \/ resp = error_response StatusUnauthorized "Not authorized to update this video"
  \/ resp = error_response StatusInternalServerError "Couldn't update video".

(** The check run on every scale [k] of the 16:9, 9:16 and 1:1 frames. *)
Definition scale_ok (k : nat) : bool :=
  let k := Z.of_nat k in
  match getVideoAspectRatio (one_stream (16 * k) (9 * k)),
        getVideoAspectRatio (one_stream (9 * k) (16 * k)),
        getVideoAspectRatio (one_stream k k) with
  | Ok a, Ok b, Ok c =>
      bool_decide (a = "landscape"%string) && bool_decide (b = "portrait"%string)
      && bool_decide (c = "other"%string)
  | _, _, _ => false
  end.

(* ===================================================================== *)
(** * Properties *)
(* ===================================================================== *)

(** ** Encoders *)

Example hex_example : Hex.encode [Byte.x00; Byte.xff; Byte.x1a] = "00ff1a"%string.
Proof. reflexivity. Qed.

Example base64_rfc4648 :
  Base64.EncodeToString
    [Byte.x66; Byte.x6f; Byte.x6f; Byte.x62; Byte.x61; Byte.x72] = "Zm9vYmFy"%string
  /\ Base64.EncodeToString [Byte.x66; Byte.x6f] = "Zm8"%string
  /\ Base64.EncodeToString [Byte.x66] = "Zg"%string
  /\ Base64.EncodeToString [Byte.xfb; Byte.xff] = "-_8"%string.
Proof. repeat split; reflexivity. Qed.

Lemma string_length_append (a b : string) :
  String.length (a +:+ b) = (String.length a + String.length b)%nat.
Proof. induction a as [|c a IH]; simpl; [reflexivity | by rewrite IH]. Qed.

Lemma hex_digit_is_digit (n : N) : Hex.is_digit (Hex.digit n) = true.
Proof.
  destruct n as [|p]; [reflexivity|].
  do 4 (try (destruct p as [p|p|]; try reflexivity)).
Qed.

Lemma hex_encode_digits (bs : list byte) : Hex.all_digits (Hex.encode bs) = true.
Proof.
  induction bs as [|b bs IH]; simpl; [reflexivity|].
  by rewrite !hex_digit_is_digit, IH.
Qed.

Lemma hex_encode_length (bs : list byte) :
  String.length (Hex.encode bs) = (2 * length bs)%nat.
Proof. induction bs as [|b bs IH]; simpl; [reflexivity | rewrite IH; lia]. Qed.

(** Lists three elements at a time, as the base64 encoder consumes them. *)
Lemma list_ind3 {A} (P : list A -> Prop) :
  P [] -> (forall a, P [a]) -> (forall a b, P [a; b]) ->
  (forall a b c l, P l -> P (a :: b :: c :: l)) ->
  forall l, P l.
Proof.
  intros H0 H1 H2 H3.
  fix IH 1. intros [|a [|b [|c l]]]; [exact H0 | apply H1 | apply H2 |].
  apply H3, IH.
Qed.

Lemma base64_sextet_url (n : N) : Base64.is_url_char (Base64.sextet n) = true.
Proof.
  unfold Base64.sextet.
  assert (Hlt : (N.to_nat (N.land n 63) < 64)%nat).
  { change 63%N with (N.ones 6). rewrite N.land_ones.
    pose proof (N.mod_upper_bound n (2 ^ 6)%N). lia. }
  revert Hlt. generalize (N.to_nat (N.land n 63)). intros k Hk.
  do 64 (destruct k as [|k]; [vm_compute; reflexivity|]). lia.
Qed.

Lemma base64_url_chars (src : list byte) :
  Base64.all_url_chars (Base64.EncodeToString src) = true.
Proof.
  induction src as [|a|a b|a b c l IH] using list_ind3;
    cbn [Base64.EncodeToString Base64.all_url_chars];
    rewrite ?base64_sextet_url; try reflexivity. exact IH.
Qed.

(** The encoded length without padding, [EncodedLen] of the raw
    encodings. *)
Lemma base64_length (src : list byte) :
  String.length (Base64.EncodeToString src) = ((4 * length src + 2) / 3)%nat.
Proof.
  induction src as [|a|a b|a b c l IH] using list_ind3; try reflexivity.
  change (String.length (Base64.EncodeToString (a :: b :: c :: l)))
    with (4 + String.length (Base64.EncodeToString l))%nat.
  rewrite IH. cbn [length].
  replace (4 * S (S (S (length l))) + 2)%nat with (4 * length l + 2 + 4 * 3)%nat by lia.
  rewrite Nat.div_add by lia. lia.
Qed.

Lemma rand_Read_length (env : Env) (n : nat) (bs : list byte) :
  rand_Read env n = Ok bs -> length bs = n.
Proof.
  unfold rand_Read. destruct (rand_source env); [|discriminate].
  intros [= <-]. by rewrite length_map, length_seq.
Qed.

(** ** Encodings lose nothing *)

Lemma hex_byte_roundtrip (b : byte) :
  hex_value (Hex.digit (N.shiftr (Byte.to_N b) 4)) = Some (N.shiftr (Byte.to_N b) 4)
  /\ hex_value (Hex.digit (N.land (Byte.to_N b) 15)) = Some (N.land (Byte.to_N b) 15)
  /\ Byte.of_N (N.lor (N.shiftl (N.shiftr (Byte.to_N b) 4) 4) (N.land (Byte.to_N b) 15))
     = Some b.
Proof. destruct b; vm_compute; repeat split. Qed.

Theorem hex_decode_encode (bs : list byte) : hex_decode (Hex.encode bs) = Some bs.
Proof.
  induction bs as [|b bs IH]; [reflexivity|].
  cbn [Hex.encode hex_decode].
  destruct (hex_byte_roundtrip b) as (-> & -> & ->). by rewrite IH.
Qed.

Lemma all_bytes_complete (b : byte) : b ∈ all_bytes.
Proof.
  apply (list_elem_of_lookup_2 _ (N.to_nat (Byte.to_N b))).
  destruct b; reflexivity.
Qed.

Lemma base64_value_sextet (n : N) :
  base64_value (Base64.sextet n) = Some (N.land n 63).
Proof.
  unfold Base64.sextet.
  assert (Hlt : (N.land n 63 < 64)%N).
  { change 63%N with (N.ones 6). rewrite N.land_ones.
    apply N.mod_upper_bound. discriminate. }
  rewrite <- (N2Nat.id (N.land n 63)) at 2.
  assert (Hk : (N.to_nat (N.land n 63) < 64)%nat) by lia.
  revert Hk. generalize (N.to_nat (N.land n 63)). intros k Hk.
  do 64 (destruct k as [|k]; [vm_compute; reflexivity|]). lia.
Qed.

(** A number is its high bits above its low [k] bits. *)
Lemma split_bits (x k : N) :
  N.lor (N.shiftl (N.shiftr x k) k) (N.land x (N.ones k)) = x.
Proof.
  apply N.bits_inj. intros n. rewrite N.lor_spec, N.land_spec.
  destruct (N.ltb_spec n k) as [Hlt|Hge].
  - rewrite N.shiftl_spec_low, N.ones_spec_low by assumption.
    by rewrite andb_true_r.
  - rewrite N.shiftl_spec_high', N.shiftr_spec', N.ones_spec_high by assumption.
    rewrite N.sub_add by assumption. by rewrite andb_false_r, orb_false_r.
Qed.

Lemma quantum_nested (a s1 s2 s3 : N) :
  base64_quantum a s1 s2 s3
  = N.lor (N.shiftl (N.lor (N.shiftl (N.lor (N.shiftl a 6) s1) 6) s2) 6) s3.
Proof.
  unfold base64_quantum. rewrite !N.shiftl_lor, !N.shiftl_shiftl. reflexivity.
Qed.

Lemma quantum_reassemble (v : N) :
  base64_quantum (N.shiftr v 18) (N.land (N.shiftr v 12) 63)
    (N.land (N.shiftr v 6) 63) (N.land v 63) = v.
Proof.
  rewrite quantum_nested.
  change 18%N with (12 + 6)%N. rewrite <- (N.shiftr_shiftr v 12 6).
  change 63%N with (N.ones 6). rewrite (split_bits (N.shiftr v 12) 6).
  change 12%N with (6 + 6)%N. rewrite <- (N.shiftr_shiftr v 6 6).
  rewrite (split_bits (N.shiftr v 6) 6). apply split_bits.
Qed.

(** Three bytes packed into 24 bits come apart again. *)
Lemma pack_unpack (b0 b1 b2 : byte) :
  let v := N.lor (N.lor (N.shiftl (Byte.to_N b0) 16) (N.shiftl (Byte.to_N b1) 8))
             (Byte.to_N b2) in
  N.land (N.shiftr v 18) 63 = N.shiftr v 18
  /\ Byte.of_N (N.shiftr v 16) = Some b0
  /\ Byte.of_N (N.land (N.shiftr v 8) 255) = Some b1
  /\ Byte.of_N (N.land v 255) = Some b2.
Proof.
  cbv zeta.
  pose proof (Byte.to_N_bounded b0) as H0.
  pose proof (Byte.to_N_bounded b1) as H1.
  pose proof (Byte.to_N_bounded b2) as H2.
  set (n0 := Byte.to_N b0) in *. set (n1 := Byte.to_N b1) in *.
  set (n2 := Byte.to_N b2) in *.
  assert (Hsmall : forall n k : N, (n <= 255 -> 8 <= k -> N.shiftr n k = 0)%N).
  { intros n k Hn Hk. apply N.shiftr_eq_0_iff.
    destruct (N.eq_dec n 0%N) as [->|Hnz]; [by left|right]. split; [lia|].
    apply N.log2_lt_pow2; [lia|].
    apply N.lt_le_trans with (2 ^ 8)%N; [simpl; lia|].
    apply N.pow_le_mono_r; lia. }
  assert (Hlow : forall n k : N, (8 <= k -> N.land (N.shiftl n k) 255 = 0)%N).
  { intros n k Hk. apply N.bits_inj. intros i. rewrite N.land_spec, N.bits_0.
    change 255%N with (N.ones 8).
    destruct (N.ltb_spec i 8).
    - rewrite N.shiftl_spec_low by lia. reflexivity.
    - rewrite N.ones_spec_high by lia. apply andb_false_r. }
  assert (Hid : forall n : N, (n <= 255 -> N.land n 255 = n)%N).
  { intros n Hn. change 255%N with (N.ones 8). rewrite N.land_ones.
    apply N.mod_small. simpl. lia. }
  assert (Hv16 : N.shiftr (N.lor (N.lor (N.shiftl n0 16) (N.shiftl n1 8)) n2) 16 = n0).
  { rewrite !N.shiftr_lor.
    rewrite (N.shiftr_shiftl_l n0 16 16), (N.shiftr_shiftl_r n1 8 16) by lia.
    change (16 - 16)%N with 0%N. change (16 - 8)%N with 8%N.
    rewrite (Hsmall n1 8%N), (Hsmall n2 16%N) by lia.
    rewrite N.shiftl_0_r, !N.lor_0_r. reflexivity. }
  assert (Hv8 : N.shiftr (N.lor (N.lor (N.shiftl n0 16) (N.shiftl n1 8)) n2) 8
                = N.lor (N.shiftl n0 8) n1).
  { rewrite !N.shiftr_lor.
    rewrite (N.shiftr_shiftl_l n0 16 8), (N.shiftr_shiftl_l n1 8 8) by lia.
    change (16 - 8)%N with 8%N. change (8 - 8)%N with 0%N.
    rewrite (Hsmall n2 8%N) by lia. rewrite N.shiftl_0_r, N.lor_0_r. reflexivity. }
  repeat split.
  - change 18%N with (16 + 2)%N. rewrite <- N.shiftr_shiftr, Hv16.
    change 63%N with (N.ones 6). rewrite N.land_ones. apply N.mod_small.
    rewrite N.shiftr_div_pow2. apply N.Div0.div_lt_upper_bound. simpl. lia.
  - rewrite Hv16. apply Byte.of_to_N.
  - rewrite Hv8, N.land_lor_distr_l, Hlow, N.lor_0_l, Hid by lia. apply Byte.of_to_N.
  - rewrite !N.land_lor_distr_l, !Hlow, !N.lor_0_l, Hid by lia. apply Byte.of_to_N.
Qed.

Lemma base64_chunk_roundtrip (b0 b1 b2 : byte) (rest : list byte) :
  base64_decode (Base64.EncodeToString rest) = Some rest ->
  base64_decode (Base64.EncodeToString (b0 :: b1 :: b2 :: rest))
  = Some (b0 :: b1 :: b2 :: rest).
Proof.
  intros IH. cbn [Base64.EncodeToString base64_decode].
  rewrite !base64_value_sextet, IH.
  destruct (pack_unpack b0 b1 b2) as (Hhi & Hx & Hy & Hz). cbv zeta in *.
  rewrite Hhi, quantum_reassemble, Hx, Hy, Hz. reflexivity.
Qed.

Lemma decodes_to_eq (o : option (list byte)) (bs : list byte) :
  decodes_to o bs = true -> o = Some bs.
Proof.
  destruct o as [l|]; [|discriminate]. simpl. intros H.
  f_equal. revert bs H.
  induction l as [|x l IH]; intros [|y bs]; simpl; try done.
  intros [Hxy H]%andb_prop. apply Byte.byte_dec_bl in Hxy as ->.
  f_equal. by apply IH.
Qed.

Lemma base64_tail_roundtrip (b0 b1 : byte) :
  base64_decode (Base64.EncodeToString [b0; b1]) = Some [b0; b1]
  /\ base64_decode (Base64.EncodeToString [b0]) = Some [b0].
Proof.
  assert (Hall : forallb (fun x => forallb (tail_ok x) all_bytes) all_bytes = true)
    by (vm_compute; reflexivity).
  pose proof (proj1 (forallb_forall _ _) Hall b0
                (proj1 (list_elem_of_In _ _) (all_bytes_complete b0))) as Hb0.
  pose proof (proj1 (forallb_forall _ _) Hb0 b1
                (proj1 (list_elem_of_In _ _) (all_bytes_complete b1))) as Hb1.
  apply andb_prop in Hb1 as [H2 H1].
  split; by apply decodes_to_eq.
Qed.

Theorem base64_decode_encode (src : list byte) :
  base64_decode (Base64.EncodeToString src) = Some src.
Proof.
  induction src as [|a|a b|a b c l IH] using list_ind3.
  - reflexivity.
  - exact (proj2 (base64_tail_roundtrip a a)).
  - exact (proj1 (base64_tail_roundtrip a b)).
  - by apply base64_chunk_roundtrip.
Qed.

(** ** The format prober *)

Lemma const_1_1 : const 1 1 = S754_finite false 4503599627370496 (-52).
Proof. vm_compute. reflexivity. Qed.

Lemma const_16_9 : const 16 9 = S754_finite false 8006399337547548 (-52).
Proof. vm_compute. reflexivity. Qed.

Lemma const_9_16 : const 9 16 = S754_finite false 5066549580791808 (-53).
Proof. vm_compute. reflexivity. Qed.

Lemma const_1_100 : const 1 100 = S754_finite false 5764607523034235 (-59).
Proof. vm_compute. reflexivity. Qed.

Lemma of_int_0 : of_int 0 = S754_zero false.
Proof. reflexivity. Qed.

(** Comparison is antisymmetric, also on operands that are not ordered. *)
Lemma SFcompare_antisym (x y : float64) :
  SFcompare y x = CompOpp <$> SFcompare x y.
Proof.
  destruct x as [sx|sx| |sx mx ex], y as [sy|sy| |sy my ey]; simpl;
    try reflexivity; try (destruct sx; reflexivity); try (destruct sy; reflexivity);
    try (destruct sx, sy; reflexivity).
  f_equal.
  rewrite (Z.compare_antisym ex ey).
  pose proof (Pos.compare_cont_antisym mx my Eq) as Hm; simpl in Hm.
  destruct sx, sy; simpl; try reflexivity;
    destruct (ex ?= ey); simpl; try reflexivity; congruence.
Qed.

(** A ratio that is not above one and is a number is at most one. *)
Lemma not_gtb_leb (x y : float64) :
  gtb x y = false -> x <> S754_nan -> y <> S754_nan -> leb x y = true.
Proof.
  unfold gtb, leb, SFltb, SFleb. rewrite (SFcompare_antisym x y).
  destruct (SFcompare x y) as [[]|] eqn:E; simpl; try done.
  destruct x, y; simpl in E; try done.
Qed.

(** A ratio above one is not at most one. *)
Lemma gtb_not_leb (x y : float64) : gtb x y = true -> leb x y = false.
Proof.
  unfold gtb, leb, SFltb, SFleb. rewrite (SFcompare_antisym x y).
  destruct (SFcompare x y) as [[]|]; simpl; done.
Qed.

(** Not-a-number is at no distance below the tolerance. *)
Lemma nan_not_close (c t : float64) : ltb (Abs (sub S754_nan c)) t = false.
Proof. reflexivity. Qed.

Lemma getVideoAspectRatio_refines_spec (out : ffprobeOutput) :
  getVideoAspectRatio (ProbeStdout (Ok out)) = Ok (classification_spec out).
Proof.
  unfold getVideoAspectRatio, classification_spec, tolerance.
  destruct (Streams out) as [|s0 rest]; [reflexivity|].
  cbv zeta.
  generalize (div (of_int (Width s0)) (of_int (Height s0))); intros ratio.
  destruct (gtb ratio (const 1 1)) eqn:Hgt; simpl.
  - rewrite (gtb_not_leb _ _ Hgt).
    destruct (ltb (Abs (sub ratio (const 16 9))) (const 1 100)); reflexivity.
  - destruct (ltb (Abs (sub ratio (const 9 16))) (const 1 100)) eqn:Hclose.
    + rewrite not_gtb_leb; [reflexivity | assumption | | by rewrite const_1_1].
      intros ->. by rewrite nan_not_close in Hclose.
    + by rewrite andb_false_r.
Qed.

(** C2. Aspect-ratio classification of a probe result is exactly the
    specified one: [other] when no stream is reported; with
    [ratio = width / height] (a [float64] division), [landscape] when
    [ratio > 1] and [|ratio - 16/9| < 0.01], [portrait] when [ratio <= 1]
    and [|ratio - 9/16| < 0.01], and [other] otherwise.  In particular
    1920x1080 is [landscape], 1080x1920 is [portrait], 1000x1000 is [other]
    and a result without streams is [other]. *)
Theorem C2_aspect_ratio_classification :
  (forall out : ffprobeOutput,
      getVideoAspectRatio (ProbeStdout (Ok out)) = Ok (classification_spec out))
  /\ getVideoAspectRatio (one_stream 1920 1080) = Ok "landscape"%string
  /\ getVideoAspectRatio (one_stream 1080 1920) = Ok "portrait"%string
  /\ getVideoAspectRatio (one_stream 1000 1000) = Ok "other"%string
  /\ getVideoAspectRatio (ProbeStdout (Ok {| Streams := [] |})) = Ok "other"%string.
Proof.
  split; [exact getVideoAspectRatio_refines_spec|].
  repeat split; vm_compute; reflexivity.
Qed.

Lemma getVideoAspectRatio_label (run : ProbeRun) (label : string) :
  getVideoAspectRatio run = Ok label -> is_label label.
Proof.
  unfold getVideoAspectRatio, is_label.
  destruct run as [e|[out|e]]; try discriminate.
  destruct (Streams out) as [|s0 rest]; [intros [= <-]; auto|].
  cbv zeta. destruct (gtb _ _); destruct (ltb _ _); intros [= <-]; auto.
Qed.

Lemma zero_height_other (s0 : videoStream) (rest : list videoStream) :
  Height s0 = 0 ->
  getVideoAspectRatio (ProbeStdout (Ok {| Streams := s0 :: rest |})) = Ok "other"%string.
Proof.
  intros Hh. unfold getVideoAspectRatio, tolerance; cbv beta iota zeta delta [Streams].
  rewrite Hh, of_int_0, const_1_1, const_16_9, const_9_16, const_1_100.
  generalize (of_int (Width s0)); intros w.
  destruct w as [[]|[]| |[] m e]; reflexivity.
Qed.

Lemma zero_width_other (s0 : videoStream) (rest : list videoStream) :
  Width s0 = 0 ->
  getVideoAspectRatio (ProbeStdout (Ok {| Streams := s0 :: rest |})) = Ok "other"%string.
Proof.
  intros Hw. unfold getVideoAspectRatio, tolerance; cbv beta iota zeta delta [Streams].
  rewrite Hw, of_int_0, const_1_1, const_16_9, const_9_16, const_1_100.
  generalize (of_int (Height s0)); intros h.
  destruct h as [[]|[]| |[] m e]; reflexivity.
Qed.

(** C10. On a probe output with at least one stream the classification
    always returns, without an error, one of [landscape], [portrait] and
    [other]; a zero height or a zero width does not fault (the division is
    a [float64] division, giving an infinity or not-a-number) and is
    classified [other]. *)
Theorem C10_classification_total (s0 : videoStream) (rest : list videoStream) :
  exists label : string,
    getVideoAspectRatio (ProbeStdout (Ok {| Streams := s0 :: rest |})) = Ok label
    /\ is_label label
    /\ (Height s0 = 0 -> label = "other"%string)
    /\ (Width s0 = 0 -> label = "other"%string).
Proof.
  destruct (getVideoAspectRatio (ProbeStdout (Ok {| Streams := s0 :: rest |})))
    as [label|e] eqn:E.
  - exists label. split; [reflexivity|]. split; [by eapply getVideoAspectRatio_label|].
    split; intros H0.
    + rewrite (zero_height_other s0 rest H0) in E. by injection E as <-.
    + rewrite (zero_width_other s0 rest H0) in E. by injection E as <-.
  - exfalso. revert E. unfold getVideoAspectRatio; cbv beta iota zeta delta [Streams].
    destruct (gtb _ _); destruct (ltb _ _); discriminate.
Qed.

(** ** Running the handlers *)

#[local] Arguments String.append : simpl never.
#[local] Arguments Hex.encode : simpl never.
#[local] Arguments Base64.EncodeToString : simpl never.
#[local] Arguments seq : simpl never.
#[local] Arguments getVideoAspectRatio : simpl never.
#[local] Arguments rand_Read : simpl never.

Ltac unfold_handlers :=
  unfold handlerUploadVideo, handlerUploadThumbnail, run,
    handlerUploadVideo_body, handlerUploadThumbnail_body,
    processVideoForFastStart, exec_ffmpeg,
    os_CreateTemp, os_Create, io_Copy, os_Open, s3_PutObject,
    db_GetVideo, db_UpdateVideo,
    orelse, bind, pure, ret, get_world, modify, defer,
    respondWithError, respondWithJSON, error_response,
    video_part, thumbnail_part, FormFile, ParseMultipartForm in *.

(** Case analysis on the innermost scrutinee, which is the call the
    handler makes next. *)
Ltac destruct_inner x :=
  lazymatch x with
  | context [match ?y with _ => _ end] => destruct_inner y
  | _ => destruct x eqn:?
  end.

Ltac explore :=
  repeat (simpl;
    match goal with
    | |- context [match ?x with _ => _ end] => destruct_inner x
    end);
  simpl.

Ltac status_neq :=
  unfold StatusOK, StatusBadRequest, StatusUnauthorized, StatusForbidden,
    StatusNotFound, StatusInternalServerError in *; lia.

(** *** The credential gate *)

(** C7 (as amended). A request with a well-formed video identifier and
    without a valid bearer credential (no token, or a token that fails
    validation) is answered 401 Unauthorized by both handlers, and the
    record store, the disk and the object store are left as they were. *)
Theorem C7_no_credential_unauthorized
    (lib : Lib) (cfg : apiConfig) (env : Env) (r : Request) (w : World)
    (id : UUID) (e : error) :
  uuid_Parse lib (PathValue_videoID r) = Ok id ->
  authenticate lib cfg r = Err e ->
  (exists msg, handlerUploadVideo lib cfg env r w
               = (w, error_response StatusUnauthorized msg))
  /\ (exists msg, handlerUploadThumbnail lib cfg env r w
                  = (w, error_response StatusUnauthorized msg)).
Proof.
  unfold authenticate. intros Hid Hauth. unfold_handlers. rewrite Hid. simpl.
  destruct (auth_GetBearerToken lib (Header r)) as [token|e1]; simpl.
  - rewrite Hauth. simpl. eauto.
  - eauto.
Qed.

Lemma C7_no_credential_unauthorized_witness :
  (exists msg,
      handlerUploadVideo Demo.lib Demo.cfg Demo.env_ok
        (Demo.request Demo.id1 [] 1000 "video" "video/mp4") Demo.w0
      = (Demo.w0, error_response StatusUnauthorized msg))
  /\ (exists msg,
         handlerUploadThumbnail Demo.lib Demo.cfg Demo.env_ok
           (Demo.request Demo.id1 [] 1000 "video" "video/mp4") Demo.w0
         = (Demo.w0, error_response StatusUnauthorized msg)).
Proof.
  apply (C7_no_credential_unauthorized Demo.lib Demo.cfg Demo.env_ok
           (Demo.request Demo.id1 [] 1000 "video" "video/mp4") Demo.w0 1%N
           "no auth header included in request"%string);
    reflexivity.
Defined.

(** Without a valid credential nothing is mutated, whatever the
    identifier. *)
Lemma no_credential_no_mutation
    (lib : Lib) (cfg : apiConfig) (env : Env) (r : Request) (w : World) (e : error) :
  authenticate lib cfg r = Err e ->
  (handlerUploadVideo lib cfg env r w).1 = w
  /\ (handlerUploadThumbnail lib cfg env r w).1 = w.
Proof.
  unfold authenticate. intros Hauth. unfold_handlers.
  destruct (uuid_Parse lib (PathValue_videoID r)); simpl; [|done].
  destruct (auth_GetBearerToken lib (Header r)) as [token|e1]; simpl; [|done].
  rewrite Hauth. done.
Qed.

(** C7, the claim as stated fails: a request without any credential whose
    video identifier is malformed is answered 400 Bad Request, not 401:
    both handlers check the identifier before the credential. *)
Lemma C7_counterexample :
  let r := Demo.request "not-a-uuid" [] 1000 "video" "video/mp4" in
  authenticate Demo.lib Demo.cfg r = Err "no auth header included in request"%string
  /\ handlerUploadVideo Demo.lib Demo.cfg Demo.env_ok r Demo.w0
     = (Demo.w0, error_response StatusBadRequest "Invalid ID")
  /\ handlerUploadThumbnail Demo.lib Demo.cfg Demo.env_ok r Demo.w0
     = (Demo.w0, error_response StatusBadRequest "Invalid ID")
  /\ StatusBadRequest <> StatusUnauthorized.
Proof. repeat split. status_neq. Qed.

(** *** Multipart intake *)

(** C6 (as amended). Once a request has passed the gates that come before
    intake (a well-formed identifier and a valid credential in both
    handlers and, in the video handler, a record that exists and is owned
    by the caller), the handler answers 400 Bad Request when the named file
    part is absent, when the part declares no Content-Type, or when its
    declared media type is not allowed (video: [video/mp4] only;
    thumbnail: [image/jpeg] or [image/png]), and nothing is mutated.  In
    particular a thumbnail of type [image/gif] is answered 400. *)
Theorem C6_intake_bad_request
    (lib : Lib) (cfg : apiConfig) (env : Env) (r : Request) (w : World)
    (id userID : UUID) :
  uuid_Parse lib (PathValue_videoID r) = Ok id ->
  authenticate lib cfg r = Ok userID ->
  (forall video : Video,
      db w !! id = Some video -> UserID video = userID ->
      intake_rejects lib ["video/mp4"%string] (video_part r) ->
      exists msg, handlerUploadVideo lib cfg env r w
                  = (w, error_response StatusBadRequest msg))
  /\ (intake_rejects lib ["image/jpeg"%string; "image/png"%string] (thumbnail_part r) ->
      exists msg, handlerUploadThumbnail lib cfg env r w
                  = (w, error_response StatusBadRequest msg))
  /\ (forall part : Part,
         thumbnail_part r = Ok part ->
         mime_ParseMediaType lib (ContentType part) = Ok "image/gif"%string ->
         exists msg, handlerUploadThumbnail lib cfg env r w
                     = (w, error_response StatusBadRequest msg)).
Proof.
  unfold authenticate. intros Hid Hauth.
  destruct (auth_GetBearerToken lib (Header r)) as [token|e1] eqn:Htok; [|discriminate].
  assert (Hthumb :
    intake_rejects lib ["image/jpeg"%string; "image/png"%string] (thumbnail_part r) ->
    exists msg, handlerUploadThumbnail lib cfg env r w
                = (w, error_response StatusBadRequest msg)).
  { unfold intake_rejects. unfold_handlers. rewrite Hid, Htok. simpl. rewrite Hauth. simpl.
    destruct (Form r) as [form|e]; simpl; [|eauto].
    destruct (first_file "thumbnail" form) as [part|e]; simpl; [|eauto].
    destruct (decide (ContentType part = ""%string)); simpl; [eauto|].
    destruct (mime_ParseMediaType lib (ContentType part)) as [mediaType|e]; simpl; [|eauto].
    destruct (decide (mediaType <> "image/jpeg"%string /\ mediaType <> "image/png"%string))
      as [|Hin]; simpl; [eauto|].
    intros [Hct|Hnot]; [done|]. exfalso. apply Hin.
    split; intros ->; apply Hnot; repeat constructor. }
  split; [|split; [exact Hthumb|]].
  - intros video Hdb Hown. unfold intake_rejects. unfold_handlers.
    rewrite Hid, Htok. simpl. rewrite Hauth. simpl. rewrite Hdb. simpl.
    destruct (decide (UserID video <> userID)); [done|]. simpl.
    destruct (if Z.shiftl 1 30 <? BodyLen r then _ else _) as [form|e]; simpl; [|eauto].
    destruct (first_file "video" form) as [part|e]; simpl; [|eauto].
    destruct (decide (ContentType part = ""%string)); simpl; [eauto|].
    destruct (mime_ParseMediaType lib (ContentType part)) as [mediaType|e]; simpl; [|eauto].
    destruct (decide (mediaType <> "video/mp4"%string)) as [|Hin]; simpl; [eauto|].
    intros [Hct|Hnot]; [done|]. exfalso. apply Hnot.
    apply dec_stable in Hin as ->. constructor.
  - intros part Hpart Hgif. apply Hthumb. unfold intake_rejects. rewrite Hpart, Hgif.
    right. rewrite !elem_of_cons, elem_of_nil. intros [?|[?|[]]]; discriminate.
Qed.

Lemma C6_intake_bad_request_witness :
  exists msg,
    handlerUploadThumbnail Demo.lib Demo.cfg Demo.env_ok
      (Demo.request Demo.id1 Demo.alice 1000 "thumbnail" "image/gif") Demo.w0
    = (Demo.w0, error_response StatusBadRequest msg).
Proof.
  refine (proj2 (proj2
    (C6_intake_bad_request Demo.lib Demo.cfg Demo.env_ok
       (Demo.request Demo.id1 Demo.alice 1000 "thumbnail" "image/gif") Demo.w0
       1%N 100%N _ _)) {| ContentType := "image/gif"; Data := Demo.payload |} _ _);
    reflexivity.
Defined.

(** C6, the claim as stated fails: a video upload without its file part
    and without a credential is answered 401, not 400: the credential gate
    comes before intake. *)
Lemma C6_counterexample :
  let r := {| PathValue_videoID := Demo.id1; Header := []; BodyLen := 0; Form := Ok [] |} in
  video_part r = Err "http: no such file"%string
  /\ handlerUploadVideo Demo.lib Demo.cfg Demo.env_ok r Demo.w0
     = (Demo.w0, error_response StatusUnauthorized "Couldn't find JWT")
  /\ StatusUnauthorized <> StatusBadRequest.
Proof. repeat split. status_neq. Qed.

(** *** The ownership gate *)

(** What the thumbnail handler does before it looks the record up can
    only end in 400 or 500; it never touches the record store or the
    object store. *)
Lemma thumbnail_stores_untouched_unless_updated
    (lib : Lib) (cfg : apiConfig) (env : Env) (r : Request) (w : World) :
  let t := handlerUploadThumbnail lib cfg env r w in
  s3 t.1 = s3 w
  /\ (StatusCode t.2 <> StatusOK -> db t.1 = db w).
Proof.
  unfold_handlers. explore; split; try done; intros; status_neq.
Qed.

(** The thumbnail handler writes the upload to disk before it looks the
    record up and checks its owner: when the caller is not the owner, the
    file is there when the handler answers 401. *)
Lemma thumbnail_written_before_ownership_check
    (lib : Lib) (cfg : apiConfig) (env : Env) (r : Request) (w : World)
    (id userID : UUID) (video : Video) (part : Part) (randomBytes : list byte) :
  uuid_Parse lib (PathValue_videoID r) = Ok id ->
  authenticate lib cfg r = Ok userID ->
  thumbnail_part r = Ok part ->
  ContentType part <> ""%string ->
  mime_ParseMediaType lib (ContentType part) = Ok "image/png"%string ->
  rand_Read env 32 = Ok randomBytes ->
  Create_result env = Ok tt -> Copy_result env = CopyOk ->
  db w !! id = Some video -> UserID video <> userID ->
  let t := handlerUploadThumbnail lib cfg env r w in
  t.2 = error_response StatusUnauthorized "Not authorized to update this video"
  /\ disk t.1 !! filepath_Join lib (assetsRoot cfg)
                   (Base64.EncodeToString randomBytes +:+ ".png")%string
     = Some (Data part).
Proof.
  unfold authenticate.
  intros Hid Hauth Hpart Hct Hmime Hrand Hcreate Hcopy Hdb Hown.
  destruct (auth_GetBearerToken lib (Header r)) as [token|] eqn:Htok; [|discriminate].
  unfold_handlers. rewrite Hid, Htok. simpl. rewrite Hauth. simpl.
  destruct (Form r) as [form|]; [|discriminate]. simpl. rewrite Hpart. simpl.
  destruct (decide (ContentType part = ""%string)); [done|]. simpl.
  rewrite Hmime. simpl.
  destruct (decide ("image/png"%string <> "image/jpeg"%string
                    /\ "image/png"%string <> "image/png"%string))
    as [[_ Hpng]|_]; [done|]. simpl.
  rewrite Hrand. simpl. rewrite Hcreate. simpl. rewrite Hcopy. simpl.
  rewrite Hdb. simpl.
  destruct (decide (UserID video <> userID)); [|done]. simpl.
  split; [reflexivity|].
  destruct (decide ("image/png"%string = "image/jpeg"%string)); [discriminate|].
  destruct (decide ("image/png"%string = "image/png"%string)); [|done].
  apply lookup_insert_eq.
Qed.







(** *** The body size limit *)




(** *** Temporary files *)

(** The staging file is removed on every exit path. *)
Lemma staging_file_removed
    (lib : Lib) (cfg : apiConfig) (env : Env) (r : Request) (w : World) (name : string) :
  CreateTemp_result env = Ok name ->
  disk w !! name = None ->
  disk (handlerUploadVideo lib cfg env r w).1 !! name = None.
Proof.
  intros Htmp Hfresh. unfold_handlers. rewrite Htmp.
  explore; simplify_eq; try assumption; apply lookup_delete_eq.
Qed.

(** The repackaged file is removed on every exit path that follows a
    successful run of the repackaging tool. *)
Lemma processed_file_removed_after_success
    (lib : Lib) (cfg : apiConfig) (env : Env) (r : Request) (w : World)
    (name : string) (out : list byte) :
  CreateTemp_result env = Ok name ->
  ffmpeg_run env name = FfmpegOk out ->
  disk w !! (name +:+ ".processed")%string = None ->
  disk (handlerUploadVideo lib cfg env r w).1 !! (name +:+ ".processed")%string = None.
Proof.
  intros Htmp Hrun Hfresh. unfold_handlers. rewrite Htmp.
  explore; simplify_eq; try assumption;
    (destruct (decide (name = name +:+ ".processed")%string) as [Heq|Hne];
     [rewrite <- Heq; by rewrite lookup_delete_eq | by simplify_map_eq]).
Qed.

Lemma staging_name_differs (name : string) : name <> (name +:+ ".processed")%string.
Proof.
  intros Heq. apply (f_equal String.length) in Heq.
  rewrite string_length_append in Heq. simpl in Heq. lia.
Qed.

(** When the repackaging tool fails after writing part of its output, the
    handler returns with that output on disk: the removal of the processed
    file is deferred only after the tool has succeeded. *)
Lemma partial_output_survives
    (lib : Lib) (cfg : apiConfig) (env : Env) (r : Request) (w : World)
    (id userID : UUID) (video : Video) (part : Part) (name : string)
    (partial : list byte) (e : error) :
  uuid_Parse lib (PathValue_videoID r) = Ok id ->
  authenticate lib cfg r = Ok userID ->
  db w !! id = Some video -> UserID video = userID ->
  video_part r = Ok part ->
  ContentType part <> ""%string ->
  mime_ParseMediaType lib (ContentType part) = Ok "video/mp4"%string ->
  CreateTemp_result env = Ok name -> disk w !! name = None ->
  Copy_result env = CopyOk -> Seek_result env = Ok tt ->
  ffmpeg_run env name = FfmpegErr (Some partial) e ->
  let v := handlerUploadVideo lib cfg env r w in
  v.2 = error_response StatusInternalServerError "Failed to process video for fast start"
  /\ disk v.1 !! (name +:+ ".processed")%string = Some partial
  /\ disk v.1 !! name = None.
Proof.
  unfold authenticate.
  intros Hid Hauth Hdb Hown Hpart Hct Hmime Htmp Hfresh Hcopy Hseek Hrun.
  destruct (auth_GetBearerToken lib (Header r)) as [token|] eqn:Htok; [|discriminate].
  pose proof (staging_name_differs name) as Hne.
  unfold_handlers. rewrite Hid, Htok. simpl. rewrite Hauth. simpl. rewrite Hdb. simpl.
  destruct (decide (UserID video <> userID)); [done|]. simpl.
  rewrite Hpart. simpl.
  destruct (decide (ContentType part = ""%string)); [done|]. simpl.
  rewrite Hmime. simpl.
  destruct (decide ("video/mp4"%string <> "video/mp4"%string)); [done|]. simpl.
  rewrite Htmp. simpl. rewrite Hfresh. simpl. rewrite Hcopy. simpl.
  rewrite Hseek. simpl. rewrite Hrun. simpl.
  split; [reflexivity|]. split.
  - rewrite lookup_delete_ne by done. apply lookup_insert_eq.
  - apply lookup_delete_eq.
Qed.

(** C4, the claim fails on the code: when the repackaging tool exits with
    an error after writing part of its output, the handler answers 500 and
    returns with that partial output file still on disk; only the staging
    file is removed. *)
Theorem C4_partial_output_left_behind :
  let r := Demo.request Demo.id1 Demo.alice 1000 "video" "video/mp4" in
  let v := handlerUploadVideo Demo.lib Demo.cfg Demo.env_ffmpeg_fails r Demo.w0 in
  v.2 = error_response StatusInternalServerError "Failed to process video for fast start"
  /\ disk Demo.w0 !! "/tmp/tubely-upload-42.mp4.processed"%string = None
  /\ disk v.1 !! "/tmp/tubely-upload-42.mp4.processed"%string = Some [Byte.x03]
  /\ disk v.1 !! "/tmp/tubely-upload-42.mp4"%string = None.
Proof. repeat split; vm_compute; reflexivity. Qed.

(** *** Published URLs *)




(** C9. After an accepted thumbnail upload the bytes of the upload are
    stored under the assets directory in a file named by the URL-safe,
    unpadded base64 encoding of 32 random bytes (43 characters), followed
    by [.jpg] for [image/jpeg] and [.png] for [image/png], and the
    record's [thumbnail_url] is
    [http://localhost:{port}/assets/{that name}{that extension}]. *)
Theorem C9_thumbnail_name_and_url
    (lib : Lib) (cfg : apiConfig) (env : Env) (r : Request) (w : World) :
  let out := handlerUploadThumbnail lib cfg env r w in
  StatusCode out.2 = StatusOK ->
  exists (randomBytes : list byte) (part : Part) (mediaType extension : string)
         (video : Video),
    rand_Read env 32 = Ok randomBytes
    /\ length randomBytes = 32%nat
    /\ thumbnail_part r = Ok part
    /\ mime_ParseMediaType lib (ContentType part) = Ok mediaType
    /\ (mediaType = "image/jpeg"%string /\ extension = ".jpg"%string
        \/ mediaType = "image/png"%string /\ extension = ".png"%string)
    /\ String.length (Base64.EncodeToString randomBytes) = 43%nat
    /\ Base64.all_url_chars (Base64.EncodeToString randomBytes) = true
    /\ disk out.1 !! filepath_Join lib (assetsRoot cfg)
                       (Base64.EncodeToString randomBytes +:+ extension)%string
       = Some (Data part)
    /\ Body out.2 = VideoBody video
    /\ ThumbnailURL video
       = Some ("http://localhost:" +:+ port cfg +:+ "/assets/"
               +:+ Base64.EncodeToString randomBytes +:+ extension)%string
    /\ db out.1 !! ID video = Some video.
Proof.
  unfold_handlers. explore; intros Hok; try status_neq.
  all: try (exfalso;
            match goal with H : ¬ (_ /\ _) |- _ => apply H; split; assumption end).
  all: match goal with
       | Hr : rand_Read _ 32 = Ok ?bs,
         Hp : first_file _ _ = Ok ?p,
         Hm : mime_ParseMediaType _ _ = Ok ?m |- _ =>
           exists bs, p, m; pose proof (rand_Read_length _ _ _ Hr) as Hlen
       end.
  all: eexists _, _.
  all: split; [reflexivity|].
  all: split; [exact Hlen|].
  all: split; [first [assumption | reflexivity]|].
  all: split; [first [assumption | reflexivity]|].
  all: split; [first [by left | by right]|].
  all: split; [by rewrite base64_length, Hlen|].
  all: split; [apply base64_url_chars|].
  all: split; [by rewrite !lookup_insert_eq|].
  all: split; [reflexivity|]. all: split; [reflexivity|].
  all: apply lookup_insert_eq.
Qed.

Lemma C9_thumbnail_name_and_url_witness :
  exists (randomBytes : list byte) (part : Part) (mediaType extension : string)
         (video : Video),
    let out := handlerUploadThumbnail Demo.lib Demo.cfg Demo.env_ok
                 (Demo.request Demo.id1 Demo.alice 1000 "thumbnail" "image/png")
                 Demo.w0 in
    rand_Read Demo.env_ok 32 = Ok randomBytes
    /\ length randomBytes = 32%nat
    /\ thumbnail_part (Demo.request Demo.id1 Demo.alice 1000 "thumbnail" "image/png")
       = Ok part
    /\ mime_ParseMediaType Demo.lib (ContentType part) = Ok mediaType
    /\ (mediaType = "image/jpeg"%string /\ extension = ".jpg"%string
        \/ mediaType = "image/png"%string /\ extension = ".png"%string)
    /\ String.length (Base64.EncodeToString randomBytes) = 43%nat
    /\ Base64.all_url_chars (Base64.EncodeToString randomBytes) = true
    /\ disk out.1 !! filepath_Join Demo.lib (assetsRoot Demo.cfg)
                       (Base64.EncodeToString randomBytes +:+ extension)%string
       = Some (Data part)
    /\ Body out.2 = VideoBody video
    /\ ThumbnailURL video
       = Some ("http://localhost:" +:+ port Demo.cfg +:+ "/assets/"
               +:+ Base64.EncodeToString randomBytes +:+ extension)%string
    /\ db out.1 !! ID video = Some video.
Proof.
  apply (C9_thumbnail_name_and_url Demo.lib Demo.cfg Demo.env_ok
           (Demo.request Demo.id1 Demo.alice 1000 "thumbnail" "image/png") Demo.w0).
  vm_compute. reflexivity.
Defined.

(* ===================================================================== *)
(** * Further properties *)
(* ===================================================================== *)

(** ** What a response tells about the run *)

(** A successful video upload went through every step: this is the whole
    of what it read and what it left behind. *)
Lemma video_success_inv
    (lib : Lib) (cfg : apiConfig) (env : Env) (r : Request) (w : World) :
  let out := handlerUploadVideo lib cfg env r w in
  StatusCode out.2 = StatusOK ->
  exists (id userID : UUID) (old : Video) (part : Part) (name : string)
         (output : list byte) (classification : string) (randomBytes : list byte),
    uuid_Parse lib (PathValue_videoID r) = Ok id
    /\ authenticate lib cfg r = Ok userID
    /\ db w !! id = Some old
    /\ UserID old = userID
    /\ video_part r = Ok part
    /\ mime_ParseMediaType lib (ContentType part) = Ok "video/mp4"%string
    /\ CreateTemp_result env = Ok name
    /\ disk w !! name = None
    /\ ffmpeg_run env name = FfmpegOk output
    /\ getVideoAspectRatio (ffprobe_run env name) = Ok classification
    /\ rand_Read env 16 = Ok randomBytes
    /\ let key := video_key classification randomBytes in
       let video := with_VideoURL (video_url cfg key) old in
       out.2 = {| StatusCode := StatusOK; Body := VideoBody video |}
       /\ db out.1 = <[ID old := video]> (db w)
       /\ s3 out.1 = <[(s3Bucket cfg, key) :=
                         {| ObjBody := output; ObjContentType := "video/mp4" |}]> (s3 w)
       /\ disk out.1
          = delete name
              (delete (name +:+ ".processed")%string
                 (<[(name +:+ ".processed")%string := output]>
                    (<[name := Data part]> (<[name := []]> (disk w))))).
Proof.
  unfold authenticate, with_VideoURL, video_url, video_key.
  unfold_handlers. explore; intros Hok; try status_neq.
  match goal with
  | Ho : db _ !! ?id = Some ?old, Hp : first_file _ _ = Ok ?p,
    Ht : CreateTemp_result _ = Ok ?n, Hf : ffmpeg_run _ _ = FfmpegOk ?o,
    Hc : getVideoAspectRatio _ = Ok ?c, Hr : rand_Read _ 16 = Ok ?bs,
    Hj : auth_ValidateJWT _ _ _ = Ok ?u,
    Hm : ¬ ?m <> "video/mp4"%string, Hu : ¬ UserID _ <> _ |- _ =>
      assert (Hmp4 : m = "video/mp4"%string) by (by apply dec_stable);
      assert (Hown : UserID old = u) by (by apply dec_stable);
      exists id, u, old, p, n, o, c, bs
  end.
  subst. simplify_map_eq. repeat split; try done.
Qed.

(** The same for a successful thumbnail upload. *)
Lemma thumbnail_success_inv
    (lib : Lib) (cfg : apiConfig) (env : Env) (r : Request) (w : World) :
  let out := handlerUploadThumbnail lib cfg env r w in
  StatusCode out.2 = StatusOK ->
  exists (id userID : UUID) (old : Video) (part : Part) (mediaType extension : string)
         (randomBytes : list byte),
    uuid_Parse lib (PathValue_videoID r) = Ok id
    /\ authenticate lib cfg r = Ok userID
    /\ db w !! id = Some old
    /\ UserID old = userID
    /\ thumbnail_part r = Ok part
    /\ mime_ParseMediaType lib (ContentType part) = Ok mediaType
    /\ (mediaType = "image/jpeg"%string /\ extension = ".jpg"%string
        \/ mediaType = "image/png"%string /\ extension = ".png"%string)
    /\ rand_Read env 32 = Ok randomBytes
    /\ let video := with_ThumbnailURL (thumbnail_url cfg randomBytes extension) old in
       out.2 = {| StatusCode := StatusOK; Body := VideoBody video |}
       /\ db out.1 = <[ID old := video]> (db w)
       /\ s3 out.1 = s3 w
       /\ disk out.1
          = <[filepath_Join lib (assetsRoot cfg)
                (Base64.EncodeToString randomBytes +:+ extension)%string := Data part]>
              (disk w).
Proof.
  unfold authenticate, with_ThumbnailURL, thumbnail_url.
  unfold_handlers. explore; intros Hok; try status_neq.
  all: try (exfalso;
            match goal with H : ¬ (_ /\ _) |- _ => apply H; split; assumption end).
  all: match goal with
       | Ho : db _ !! ?id = Some ?old, Hp : first_file _ _ = Ok ?p,
         Hm : mime_ParseMediaType _ _ = Ok ?m, Hr : rand_Read _ 32 = Ok ?bs,
         Hj : auth_ValidateJWT _ _ _ = Ok ?u, Hu : ¬ UserID _ <> _ |- _ =>
           assert (Hown : UserID old = u) by (by apply dec_stable);
           exists id, u, old, p, m
       end.
  all: eexists _, _.
  all: repeat (split; [first [done | by left | by right]|]).
  all: cbv zeta; rewrite insert_insert_eq; done.
Qed.

(** X1. Each handler answers 200, 400, 401 or 500 and nothing else, and
    the body is the record exactly when the status is 200. *)
Theorem X1_status_and_body
    (ep : Endpoint) (lib : Lib) (cfg : apiConfig) (env : Env) (r : Request) (w : World) :
  let resp := (handle ep lib cfg env r w).2 in
  known_status (StatusCode resp)
  /\ (StatusCode resp = StatusOK <-> exists v, Body resp = VideoBody v).
Proof.
  unfold known_status.
  destruct ep; unfold handle; unfold_handlers; explore;
    (split; [auto 10 | split; [intros; first [status_neq | eauto]
                              | intros [? Hv]; first [discriminate | reflexivity]]]).
Qed.

(** X2. A 200 response implies that the identifier was well formed, that
    the credential was valid, and that the record existed and was owned by
    the authenticated caller. *)
Theorem X2_success_implies_owner
    (ep : Endpoint) (lib : Lib) (cfg : apiConfig) (env : Env) (r : Request) (w : World) :
  StatusCode (handle ep lib cfg env r w).2 = StatusOK ->
  exists (id userID : UUID) (old : Video),
    uuid_Parse lib (PathValue_videoID r) = Ok id
    /\ authenticate lib cfg r = Ok userID
    /\ db w !! id = Some old
    /\ UserID old = userID.
Proof.
  destruct ep; unfold handle; intros Hok.
  - destruct (video_success_inv lib cfg env r w Hok)
      as (id & userID & old & ? & ? & ? & ? & ? & H1 & H2 & H3 & H4 & _).
    by exists id, userID, old.
  - destruct (thumbnail_success_inv lib cfg env r w Hok)
      as (id & userID & old & ? & ? & ? & ? & H1 & H2 & H3 & H4 & _).
    by exists id, userID, old.
Qed.

Lemma X2_success_implies_owner_witness :
  exists (id userID : UUID) (old : Video),
    uuid_Parse Demo.lib
      (PathValue_videoID (Demo.request Demo.id1 Demo.alice 1000 "thumbnail" "image/png"))
    = Ok id
    /\ authenticate Demo.lib Demo.cfg
         (Demo.request Demo.id1 Demo.alice 1000 "thumbnail" "image/png") = Ok userID
    /\ db Demo.w0 !! id = Some old
    /\ UserID old = userID.
Proof.
  apply (X2_success_implies_owner UploadThumbnail Demo.lib Demo.cfg Demo.env_ok
           (Demo.request Demo.id1 Demo.alice 1000 "thumbnail" "image/png") Demo.w0).
  vm_compute. reflexivity.
Defined.

Lemma failure_leaves_records
    (ep : Endpoint) (lib : Lib) (cfg : apiConfig) (env : Env) (r : Request) (w : World) :
  StatusCode (handle ep lib cfg env r w).2 <> StatusOK ->
  db (handle ep lib cfg env r w).1 = db w.
Proof.
  destruct ep; unfold handle; unfold_handlers; explore; intros Hne;
    first [reflexivity | status_neq].
Qed.

(** X3. A response other than 200 leaves the record store as it was,
    whatever has been written to disk or to the object store by then. *)
Theorem X3_failure_leaves_records
    (ep : Endpoint) (lib : Lib) (cfg : apiConfig) (env : Env) (r : Request) (w : World) :
  StatusCode (handle ep lib cfg env r w).2 <> StatusOK ->
  db (handle ep lib cfg env r w).1 = db w.
Proof. apply failure_leaves_records. Qed.

Lemma X3_failure_leaves_records_witness :
  db (handle UploadVideo Demo.lib Demo.cfg Demo.env_ffmpeg_fails
        (Demo.request Demo.id1 Demo.alice 1000 "video" "video/mp4") Demo.w0).1
  = db Demo.w0.
Proof.
  apply (X3_failure_leaves_records UploadVideo Demo.lib Demo.cfg Demo.env_ffmpeg_fails
           (Demo.request Demo.id1 Demo.alice 1000 "video" "video/mp4") Demo.w0).
  vm_compute. discriminate.
Defined.

Lemma success_updates_one_record
    (ep : Endpoint) (lib : Lib) (cfg : apiConfig) (env : Env) (r : Request) (w : World) :
  let out := handle ep lib cfg env r w in
  StatusCode out.2 = StatusOK ->
  exists (id : UUID) (old : Video) (url : string),
    uuid_Parse lib (PathValue_videoID r) = Ok id
    /\ db w !! id = Some old
    /\ Body out.2 = VideoBody (updated ep url old)
    /\ db out.1 = <[ID old := updated ep url old]> (db w).
Proof.
  destruct ep; unfold handle; cbv zeta; intros Hok.
  - destruct (video_success_inv lib cfg env r w Hok)
      as (id & ? & old & ? & ? & ? & cls & rb & H1 & _ & H3 & _ & _ & _ & _ & _ & _ & _
          & _ & Hresp & Hdb & _).
    exists id, old, (video_url cfg (video_key cls rb)).
    rewrite Hresp. done.
  - destruct (thumbnail_success_inv lib cfg env r w Hok)
      as (id & ? & old & ? & ? & ext & rb & H1 & _ & H3 & _ & _ & _ & _ & _
          & Hresp & Hdb & _).
    exists id, old, (thumbnail_url cfg rb ext).
    rewrite Hresp. done.
Qed.

(** X4. A 200 response updates exactly one record: the record fetched
    under the request's identifier is stored back under its own [ID] with
    the endpoint's URL field overwritten and every other field kept, and
    that record is the body of the response. *)
Theorem X4_success_updates_one_record
    (ep : Endpoint) (lib : Lib) (cfg : apiConfig) (env : Env) (r : Request) (w : World) :
  let out := handle ep lib cfg env r w in
  StatusCode out.2 = StatusOK ->
  exists (id : UUID) (old : Video) (url : string),
    uuid_Parse lib (PathValue_videoID r) = Ok id
    /\ db w !! id = Some old
    /\ Body out.2 = VideoBody (updated ep url old)
    /\ db out.1 = <[ID old := updated ep url old]> (db w).
Proof. apply success_updates_one_record. Qed.

Lemma X4_success_updates_one_record_witness :
  exists (id : UUID) (old : Video) (url : string),
    let out := handle UploadVideo Demo.lib Demo.cfg Demo.env_ok
                 (Demo.request Demo.id1 Demo.alice 1000 "video" "video/mp4") Demo.w0 in
    uuid_Parse Demo.lib
      (PathValue_videoID (Demo.request Demo.id1 Demo.alice 1000 "video" "video/mp4"))
    = Ok id
    /\ db Demo.w0 !! id = Some old
    /\ Body out.2 = VideoBody (updated UploadVideo url old)
    /\ db out.1 = <[ID old := updated UploadVideo url old]> (db Demo.w0).
Proof.
  apply (X4_success_updates_one_record UploadVideo Demo.lib Demo.cfg Demo.env_ok
           (Demo.request Demo.id1 Demo.alice 1000 "video" "video/mp4") Demo.w0).
  vm_compute. reflexivity.
Defined.

(** X5. When every record is stored under its own identifier, it is so
    after the handler has run, and a 200 response carries the record that
    is then stored under the request's identifier. *)
Theorem X5_store_stays_keyed
    (ep : Endpoint) (lib : Lib) (cfg : apiConfig) (env : Env) (r : Request) (w : World) :
  db_keyed w ->
  let out := handle ep lib cfg env r w in
  db_keyed out.1
  /\ (forall id : UUID,
         uuid_Parse lib (PathValue_videoID r) = Ok id ->
         StatusCode out.2 = StatusOK ->
         exists v, Body out.2 = VideoBody v /\ db out.1 !! id = Some v /\ ID v = id).
Proof.
  intros Hkeyed out.
  destruct (decide (StatusCode out.2 = StatusOK)) as [Hok|Hne].
  - destruct (success_updates_one_record ep lib cfg env r w Hok)
      as (id & old & url & Hid & Hold & Hbody & Hdb).
    fold out in Hbody, Hdb.
    assert (HID : ID (updated ep url old) = ID old) by (by destruct ep).
    pose proof (Hkeyed id old Hold) as Hkey.
    split.
    + intros id' v. rewrite Hdb.
      destruct (decide (id' = ID old)) as [->|Hneq].
      * rewrite lookup_insert_eq. intros [= <-]. done.
      * rewrite lookup_insert_ne by done. apply Hkeyed.
    + intros id' Hid' _. assert (id' = id) as -> by congruence.
      exists (updated ep url old). rewrite Hdb, Hkey, lookup_insert_eq, HID. done.
  - split; [|done]. unfold db_keyed. subst out.
    rewrite (failure_leaves_records ep lib cfg env r w Hne). exact Hkeyed.
Qed.

Lemma X5_store_stays_keyed_witness :
  let out := handle UploadThumbnail Demo.lib Demo.cfg Demo.env_ok
               (Demo.request Demo.id1 Demo.alice 1000 "thumbnail" "image/png")
               Demo.w0 in
  db_keyed out.1
  /\ (forall id : UUID,
         uuid_Parse Demo.lib
           (PathValue_videoID
              (Demo.request Demo.id1 Demo.alice 1000 "thumbnail" "image/png")) = Ok id ->
         StatusCode out.2 = StatusOK ->
         exists v, Body out.2 = VideoBody v /\ db out.1 !! id = Some v /\ ID v = id).
Proof.
  apply (X5_store_stays_keyed UploadThumbnail Demo.lib Demo.cfg Demo.env_ok
           (Demo.request Demo.id1 Demo.alice 1000 "thumbnail" "image/png") Demo.w0).
  intros id v Hv. change (db Demo.w0) with ({[1%N := Demo.vid1]} : gmap UUID Video) in Hv.
  apply lookup_singleton_Some in Hv as [<- <-]. reflexivity.
Defined.

(** ** What the handlers leave in the stores and on disk *)

(** X6. When the video handler answers 500 "Failed to update video
    metadata", the repackaged file has already been published: the object
    is in the bucket under its generated key while no record refers to it,
    the record store being as it was. *)
Theorem X6_update_failure_orphans_object
    (lib : Lib) (cfg : apiConfig) (env : Env) (r : Request) (w : World) :
  let out := handlerUploadVideo lib cfg env r w in
  out.2 = error_response StatusInternalServerError "Failed to update video metadata" ->
  db out.1 = db w
  /\ exists (name classification : string) (output randomBytes : list byte),
       CreateTemp_result env = Ok name
       /\ ffmpeg_run env name = FfmpegOk output
       /\ getVideoAspectRatio (ffprobe_run env name) = Ok classification
       /\ rand_Read env 16 = Ok randomBytes
       /\ s3 out.1
          = <[(s3Bucket cfg, video_key classification randomBytes) :=
                {| ObjBody := output; ObjContentType := "video/mp4" |}]> (s3 w).
Proof.
  unfold video_key. unfold_handlers. explore; intros Hresp; try discriminate.
  split; [reflexivity|].
  match goal with
  | Ht : CreateTemp_result _ = Ok ?n, Hf : ffmpeg_run _ _ = FfmpegOk ?o,
    Hc : getVideoAspectRatio _ = Ok ?c, Hr : rand_Read _ 16 = Ok ?bs,
    Hm : ¬ ?m <> "video/mp4"%string |- _ =>
      assert (Hmp4 : m = "video/mp4"%string) by (by apply dec_stable);
      exists n, c, o, bs
  end.
  subst. simplify_map_eq. done.
Qed.

Lemma X6_update_failure_orphans_object_witness :
  let out := handlerUploadVideo Demo.lib Demo.cfg Demo.env_update_fails
               (Demo.request Demo.id1 Demo.alice 1000 "video" "video/mp4") Demo.w0 in
  db out.1 = db Demo.w0
  /\ exists (name classification : string) (output randomBytes : list byte),
       CreateTemp_result Demo.env_update_fails = Ok name
       /\ ffmpeg_run Demo.env_update_fails name = FfmpegOk output
       /\ getVideoAspectRatio (ffprobe_run Demo.env_update_fails name) = Ok classification
       /\ rand_Read Demo.env_update_fails 16 = Ok randomBytes
       /\ s3 out.1
          = <[(s3Bucket Demo.cfg, video_key classification randomBytes) :=
                {| ObjBody := output; ObjContentType := "video/mp4" |}]> (s3 Demo.w0).
Proof.
  apply (X6_update_failure_orphans_object Demo.lib Demo.cfg Demo.env_update_fails
           (Demo.request Demo.id1 Demo.alice 1000 "video" "video/mp4") Demo.w0).
  vm_compute. reflexivity.
Defined.

(** X7. Unless the repackaging tool fails after writing part of its
    output, the video handler leaves the disk exactly as it found it, on
    success and on every failure: both temporary files are gone. *)
Theorem X7_video_restores_disk
    (lib : Lib) (cfg : apiConfig) (env : Env) (r : Request) (w : World) :
  repackaging_clean env w ->
  disk (handlerUploadVideo lib cfg env r w).1 = disk w.
Proof.
  unfold repackaging_clean. intros Hclean. unfold_handlers.
  destruct (CreateTemp_result env) as [name|e] eqn:Htmp.
  - destruct Hclean as [Hfresh Hpartial].
    pose proof (staging_name_differs name) as Hne.
    explore; simplify_eq; try reflexivity.
    all: try match goal with
             | E : ffmpeg_run _ _ = FfmpegErr (Some _) _ |- _ =>
                 rewrite E in Hpartial; discriminate
             end.
    all: apply map_eq; intros path.
    all: destruct (decide (path = name)) as [->|?];
         [|destruct (decide (path = (name +:+ ".processed")%string)) as [->|?]];
         by simplify_map_eq.
  - explore; reflexivity.
Qed.

Lemma X7_video_restores_disk_witness :
  disk (handlerUploadVideo Demo.lib Demo.cfg Demo.env_ok
          (Demo.request Demo.id1 Demo.alice 1000 "video" "video/mp4") Demo.w0).1
  = disk Demo.w0.
Proof.
  apply (X7_video_restores_disk Demo.lib Demo.cfg Demo.env_ok
           (Demo.request Demo.id1 Demo.alice 1000 "video" "video/mp4") Demo.w0).
  vm_compute. split; reflexivity.
Defined.

(** X8. The video handler creates, changes and removes no file but its
    staging file and the repackaged file next to it: every other path
    holds after the request what it held before. *)
Theorem X8_video_touches_only_temp_files
    (lib : Lib) (cfg : apiConfig) (env : Env) (r : Request) (w : World) (path : string) :
  not_a_temp_file env path ->
  disk (handlerUploadVideo lib cfg env r w).1 !! path = disk w !! path.
Proof.
  unfold not_a_temp_file. intros Hpath. unfold_handlers.
  destruct (CreateTemp_result env) as [name|e] eqn:Htmp.
  - destruct Hpath as [Hname Hproc].
    explore; simplify_eq; try reflexivity; by simplify_map_eq.
  - explore; reflexivity.
Qed.

Lemma X8_video_touches_only_temp_files_witness :
  disk (handlerUploadVideo Demo.lib Demo.cfg Demo.env_ffmpeg_fails
          (Demo.request Demo.id1 Demo.alice 1000 "video" "video/mp4") Demo.w0).1
    !! "./assets/boots.png"%string
  = disk Demo.w0 !! "./assets/boots.png"%string.
Proof.
  apply (X8_video_touches_only_temp_files Demo.lib Demo.cfg Demo.env_ffmpeg_fails
           (Demo.request Demo.id1 Demo.alice 1000 "video" "video/mp4") Demo.w0).
  vm_compute. split; discriminate.
Defined.

(** X9. No handler removes an object: the thumbnail handler does not
    touch the object store, and the video handler either leaves it as it
    was or puts one object, in the configured bucket, under the key built
    from the classification and the random bytes, holding the output of
    the repackaging tool with content type [video/mp4]. *)
Theorem X9_object_store_effect
    (lib : Lib) (cfg : apiConfig) (env : Env) (r : Request) (w : World) :
  s3 (handlerUploadThumbnail lib cfg env r w).1 = s3 w
  /\ (s3 (handlerUploadVideo lib cfg env r w).1 = s3 w
      \/ exists (name classification : string) (output randomBytes : list byte),
           CreateTemp_result env = Ok name
           /\ ffmpeg_run env name = FfmpegOk output
           /\ getVideoAspectRatio (ffprobe_run env name) = Ok classification
           /\ rand_Read env 16 = Ok randomBytes
           /\ s3 (handlerUploadVideo lib cfg env r w).1
              = <[(s3Bucket cfg, video_key classification randomBytes) :=
                    {| ObjBody := output; ObjContentType := "video/mp4" |}]> (s3 w)).
Proof.
  split.
  - unfold_handlers. explore; reflexivity.
  - unfold video_key. unfold_handlers. explore; try (by left).
    all: right.
    all: match goal with
         | Ht : CreateTemp_result _ = Ok ?n, Hf : ffmpeg_run _ _ = FfmpegOk ?o,
           Hc : getVideoAspectRatio _ = Ok ?c, Hr : rand_Read _ 16 = Ok ?bs,
           Hm : ¬ ?m <> "video/mp4"%string |- _ =>
             assert (Hmp4 : m = "video/mp4"%string) by (by apply dec_stable);
             exists n, c, o, bs
         end.
    all: subst; simplify_map_eq; done.
Qed.

(** X10. The thumbnail handler changes at most one file: either the disk
    is as it was, or one file under the assets directory, named by the
    base64 of the random bytes and the extension, holds a prefix of the
    uploaded bytes (all of them unless the copy failed).  It removes
    nothing, on no path. *)
Theorem X10_thumbnail_disk_effect
    (lib : Lib) (cfg : apiConfig) (env : Env) (r : Request) (w : World) :
  let t := handlerUploadThumbnail lib cfg env r w in
  disk t.1 = disk w
  \/ exists (part : Part) (randomBytes : list byte) (extension : string) (n : nat),
       thumbnail_part r = Ok part
       /\ rand_Read env 32 = Ok randomBytes
       /\ (extension = ".jpg"%string \/ extension = ".png"%string)
       /\ (Copy_result env = CopyOk -> n = length (Data part))
       /\ disk t.1
          = <[filepath_Join lib (assetsRoot cfg)
                (Base64.EncodeToString randomBytes +:+ extension)%string :=
                take n (Data part)]> (disk w).
Proof.
  unfold_handlers. explore; try (by left).
  all: try (exfalso;
            match goal with H : ¬ (_ /\ _) |- _ => apply H; split; assumption end).
  all: right.
  all: match goal with
       | Hp : first_file _ _ = Ok ?p, Hr : rand_Read _ 32 = Ok ?bs |- _ =>
           exists p, bs
       end.
  all: match goal with
       | |- context [(Base64.EncodeToString _ +:+ ?e)%string] => exists e
       end.
  all: match goal with
       | Hc : Copy_result _ = CopyOk, Hp : first_file _ _ = Ok ?p |- _ =>
           exists (length (Data p))
       | Hc : Copy_result _ = CopyErr ?k _ |- _ => exists k
       end.
  all: rewrite ?firstn_all, insert_insert_eq.
  all: repeat (split; [first [done | by left | by right]|]); done.
Qed.

(** X11. When the thumbnail handler fails after the upload has been
    written (the record is missing, the caller is not its owner, or the
    update fails), the complete upload stays on disk under its generated
    name although no record refers to it; the record store is as it was. *)
Theorem X11_thumbnail_left_on_late_failure
    (lib : Lib) (cfg : apiConfig) (env : Env) (r : Request) (w : World) :
  let t := handlerUploadThumbnail lib cfg env r w in
  late_thumbnail_failure t.2 ->
  db t.1 = db w
  /\ exists (part : Part) (randomBytes : list byte) (extension : string),
       thumbnail_part r = Ok part
       /\ rand_Read env 32 = Ok randomBytes
       /\ (extension = ".jpg"%string \/ extension = ".png"%string)
       /\ disk t.1 !! filepath_Join lib (assetsRoot cfg)
                        (Base64.EncodeToString randomBytes +:+ extension)%string
          = Some (Data part).
Proof.
  unfold late_thumbnail_failure. unfold_handlers.
  explore; intros [H|[H|H]]; try discriminate.
  all: try (exfalso;
            match goal with H : ¬ (_ /\ _) |- _ => apply H; split; assumption end).
  all: split; [reflexivity|].
  all: match goal with
       | Hp : first_file _ _ = Ok ?p, Hr : rand_Read _ 32 = Ok ?bs |- _ =>
           exists p, bs
       end.
  all: match goal with
       | |- context [(Base64.EncodeToString _ +:+ ?e)%string] => exists e
       end.
  all: repeat (split; [first [done | by left | by right]|]).
  all: apply lookup_insert_eq.
Qed.

Lemma X11_thumbnail_left_on_late_failure_witness :
  let t := handlerUploadThumbnail Demo.lib Demo.cfg Demo.env_update_fails
             (Demo.request Demo.id1 Demo.alice 1000 "thumbnail" "image/jpeg") Demo.w0 in
  db t.1 = db Demo.w0
  /\ exists (part : Part) (randomBytes : list byte) (extension : string),
       thumbnail_part (Demo.request Demo.id1 Demo.alice 1000 "thumbnail" "image/jpeg")
       = Ok part
       /\ rand_Read Demo.env_update_fails 32 = Ok randomBytes
       /\ (extension = ".jpg"%string \/ extension = ".png"%string)
       /\ disk t.1 !! filepath_Join Demo.lib (assetsRoot Demo.cfg)
                        (Base64.EncodeToString randomBytes +:+ extension)%string
          = Some (Data part).
Proof.
  apply (X11_thumbnail_left_on_late_failure Demo.lib Demo.cfg Demo.env_update_fails
           (Demo.request Demo.id1 Demo.alice 1000 "thumbnail" "image/jpeg") Demo.w0).
  right. right. vm_compute. reflexivity.
Defined.

(** X12. The repackager does not touch its input: it writes to
    [filePath + ".processed"], which is another path, and changes nothing
    else.  When it reports success the path it returns is that one and the
    file holds the output of the tool; it reports an error exactly when
    the tool fails, and it never answers the request itself. *)
Theorem X12_repackager_effect (env : Env) (filePath : string) (s : HState) :
  exists (s' : HState) (res : Result string),
    processVideoForFastStart env filePath s = (s', inl res)
    /\ defers s' = defers s
    /\ db (world s') = db (world s)
    /\ s3 (world s') = s3 (world s)
    /\ (forall path : string,
           path <> (filePath +:+ ".processed")%string ->
           disk (world s') !! path = disk (world s) !! path)
    /\ disk (world s') !! filePath = disk (world s) !! filePath
    /\ match ffmpeg_run env filePath with
       | FfmpegOk output =>
           res = Ok (filePath +:+ ".processed")%string
           /\ disk (world s') !! (filePath +:+ ".processed")%string = Some output
       | FfmpegErr _ e => res = Err e
       end.
Proof.
  pose proof (staging_name_differs filePath) as Hne.
  unfold processVideoForFastStart, exec_ffmpeg, bind, ret, modify.
  destruct (ffmpeg_run env filePath) as [output|[part|] e]; simpl;
    eexists _, _; (split; [reflexivity|]); simpl;
    repeat split; intros; by simplify_map_eq.
Qed.

(** ** Generated names *)

(** X13. Both encodings of the random bytes can be undone: decoding the
    hexadecimal form, or the unpadded URL-safe base64 form, of any byte
    sequence gives the sequence back.  Different random bytes therefore
    never share a name. *)
Theorem X13_encodings_round_trip (bs : list byte) :
  hex_decode (Hex.encode bs) = Some bs
  /\ base64_decode (Base64.EncodeToString bs) = Some bs.
Proof. split; [apply hex_decode_encode | apply base64_decode_encode]. Qed.

(** X14. Whatever the number of bytes, the hexadecimal form has two
    lower-case hexadecimal digits per byte, and the base64 form has
    [(4 n + 2) / 3] characters, all of them letters, digits, [-] or [_]:
    no padding, no [+], no [/]. *)
Theorem X14_encoded_lengths_and_alphabets (bs : list byte) :
  String.length (Hex.encode bs) = (2 * length bs)%nat
  /\ Hex.all_digits (Hex.encode bs) = true
  /\ String.length (Base64.EncodeToString bs) = ((4 * length bs + 2) / 3)%nat
  /\ Base64.all_url_chars (Base64.EncodeToString bs) = true.
Proof.
  repeat split;
    [apply hex_encode_length | apply hex_encode_digits
     | apply base64_length | apply base64_url_chars].
Qed.

Lemma string_app_inv_head (a b c : string) : (a +:+ b = a +:+ c)%string -> b = c.
Proof. induction a as [|x a IH]; [done|]. intros [= H]. by apply IH. Qed.

Lemma string_app_inj_length (a a' b b' : string) :
  String.length a = String.length a' ->
  (a +:+ b = a' +:+ b')%string -> a = a' /\ b = b'.
Proof.
  revert a'. induction a as [|x a IH]; intros [|x' a']; try done.
  intros [= Hlen] [= -> H]. destruct (IH a' Hlen H) as [-> ->]. done.
Qed.

Lemma hex_encode_inj (bs bs' : list byte) : Hex.encode bs = Hex.encode bs' -> bs = bs'.
Proof.
  intros H. apply (f_equal hex_decode) in H.
  rewrite !hex_decode_encode in H. by injection H.
Qed.

Lemma base64_encode_inj (bs bs' : list byte) :
  Base64.EncodeToString bs = Base64.EncodeToString bs' -> bs = bs'.
Proof.
  intros H. apply (f_equal base64_decode) in H.
  rewrite !base64_decode_encode in H. by injection H.
Qed.

(** Keys of 16 random bytes coincide only when the classification and
    the bytes do. *)
Lemma video_key_inj (c c' : string) (bs bs' : list byte) :
  length bs = 16%nat -> length bs' = 16%nat ->
  video_key c bs = video_key c' bs' -> c = c' /\ bs = bs'.
Proof.
  unfold video_key. intros Hlen Hlen' Hkey.
  assert (Hc : String.length c = String.length c').
  { apply (f_equal String.length) in Hkey.
    rewrite !string_length_append, !hex_encode_length, Hlen, Hlen' in Hkey. lia. }
  destruct (string_app_inj_length _ _ _ _ Hc Hkey) as [-> Hrest].
  apply string_app_inv_head in Hrest.
  apply string_app_inj_length in Hrest as [Hhex _];
    [|by rewrite !hex_encode_length, Hlen, Hlen'].
  split; [reflexivity | by apply hex_encode_inj].
Qed.

Lemma video_url_inj (cfg : apiConfig) (key key' : string) :
  video_url cfg key = video_url cfg key' -> key = key'.
Proof. unfold video_url. intros H. by do 5 apply string_app_inv_head in H. Qed.

(** X15. Two successful video uploads under the same configuration carry
    the same URL only if the prober gave the same classification and the
    random source gave the same 16 bytes: uniqueness of the key rests on
    the random bytes alone. *)
Theorem X15_video_url_determined_by_random_bytes
    (lib : Lib) (cfg : apiConfig) (env1 env2 : Env) (r1 r2 : Request) (w1 w2 : World) :
  let o1 := handlerUploadVideo lib cfg env1 r1 w1 in
  let o2 := handlerUploadVideo lib cfg env2 r2 w2 in
  StatusCode o1.2 = StatusOK ->
  StatusCode o2.2 = StatusOK ->
  response_video_url o1.2 = response_video_url o2.2 ->
  rand_Read env1 16 = rand_Read env2 16.
Proof.
  cbv zeta. intros Hok1 Hok2 Hurl.
  destruct (video_success_inv lib cfg env1 r1 w1 Hok1)
    as (? & ? & ? & ? & ? & ? & c1 & bs1 & _ & _ & _ & _ & _ & _ & _ & _ & _ & _
        & Hr1 & Hresp1 & _).
  destruct (video_success_inv lib cfg env2 r2 w2 Hok2)
    as (? & ? & ? & ? & ? & ? & c2 & bs2 & _ & _ & _ & _ & _ & _ & _ & _ & _ & _
        & Hr2 & Hresp2 & _).
  rewrite Hresp1, Hresp2 in Hurl. unfold response_video_url in Hurl. simpl in Hurl.
  apply (inj Some), video_url_inj in Hurl.
  apply video_key_inj in Hurl as [_ ->]; [congruence | |];
    by eapply rand_Read_length.
Qed.

Lemma X15_video_url_determined_by_random_bytes_witness :
  rand_Read Demo.env_ok 16 = rand_Read Demo.env_ok 16.
Proof.
  apply (X15_video_url_determined_by_random_bytes Demo.lib Demo.cfg
           Demo.env_ok Demo.env_ok
           (Demo.request Demo.id1 Demo.alice 1000 "video" "video/mp4")
           (Demo.request Demo.id1 Demo.alice 2000 "video" "video/mp4")
           Demo.w0
           (handlerUploadVideo Demo.lib Demo.cfg Demo.env_ok2
              (Demo.request Demo.id1 Demo.alice 1000 "video" "video/mp4") Demo.w0).1);
    vm_compute; reflexivity.
Defined.

Lemma thumbnail_url_inj (cfg : apiConfig) (bs bs' : list byte) (e e' : string) :
  length bs = 32%nat -> length bs' = 32%nat ->
  thumbnail_url cfg bs e = thumbnail_url cfg bs' e' -> bs = bs' /\ e = e'.
Proof.
  unfold thumbnail_url. intros Hlen Hlen' H.
  do 3 apply string_app_inv_head in H.
  apply string_app_inj_length in H as [H ->];
    [|by rewrite !base64_length, Hlen, Hlen'].
  split; [by apply base64_encode_inj | reflexivity].
Qed.

(** X16. Two accepted thumbnail uploads under the same configuration
    carry the same URL only if the random source gave the same 32 bytes. *)
Theorem X16_thumbnail_url_determined_by_random_bytes
    (lib : Lib) (cfg : apiConfig) (env1 env2 : Env) (r1 r2 : Request) (w1 w2 : World) :
  let o1 := handlerUploadThumbnail lib cfg env1 r1 w1 in
  let o2 := handlerUploadThumbnail lib cfg env2 r2 w2 in
  StatusCode o1.2 = StatusOK ->
  StatusCode o2.2 = StatusOK ->
  response_thumbnail_url o1.2 = response_thumbnail_url o2.2 ->
  rand_Read env1 32 = rand_Read env2 32.
Proof.
  cbv zeta. intros Hok1 Hok2 Hurl.
  destruct (thumbnail_success_inv lib cfg env1 r1 w1 Hok1)
    as (? & ? & ? & ? & ? & e1 & bs1 & _ & _ & _ & _ & _ & _ & _ & Hr1 & Hresp1 & _).
  destruct (thumbnail_success_inv lib cfg env2 r2 w2 Hok2)
    as (? & ? & ? & ? & ? & e2 & bs2 & _ & _ & _ & _ & _ & _ & _ & Hr2 & Hresp2 & _).
  rewrite Hresp1, Hresp2 in Hurl. unfold response_thumbnail_url in Hurl. simpl in Hurl.
  apply (inj Some), thumbnail_url_inj in Hurl as [-> _]; [congruence | |];
    by eapply rand_Read_length.
Qed.

Lemma X16_thumbnail_url_determined_by_random_bytes_witness :
  rand_Read Demo.env_ok 32 = rand_Read Demo.env_ok 32.
Proof.
  apply (X16_thumbnail_url_determined_by_random_bytes Demo.lib Demo.cfg
           Demo.env_ok Demo.env_ok
           (Demo.request Demo.id1 Demo.alice 1000 "thumbnail" "image/png")
           (Demo.request Demo.id1 Demo.alice 2000 "thumbnail" "image/png")
           Demo.w0
           (handlerUploadThumbnail Demo.lib Demo.cfg Demo.env_ok2
              (Demo.request Demo.id1 Demo.alice 1000 "thumbnail" "image/jpeg")
              Demo.w0).1);
    vm_compute; reflexivity.
Defined.

(** ** Uploading again *)

(** X17. When a video is uploaded a second time and the random bytes
    differ, the object of the first upload is still in the bucket, as it
    was stored, after the second upload, and the second response carries
    another URL: nothing removes the object the record pointed to. *)
Theorem X17_second_upload_keeps_first_object
    (lib : Lib) (cfg : apiConfig) (env1 env2 : Env) (r1 r2 : Request) (w : World) :
  let o1 := handlerUploadVideo lib cfg env1 r1 w in
  let o2 := handlerUploadVideo lib cfg env2 r2 o1.1 in
  StatusCode o1.2 = StatusOK ->
  StatusCode o2.2 = StatusOK ->
  rand_Read env1 16 <> rand_Read env2 16 ->
  exists (key : string) (obj : Object),
    response_video_url o1.2 = Some (video_url cfg key)
    /\ s3 o1.1 !! (s3Bucket cfg, key) = Some obj
    /\ s3 o2.1 !! (s3Bucket cfg, key) = Some obj
    /\ response_video_url o2.2 <> response_video_url o1.2.
Proof.
  cbv zeta. intros Hok1 Hok2 Hrand.
  destruct (video_success_inv lib cfg env1 r1 w Hok1)
    as (? & ? & ? & ? & ? & out1 & c1 & bs1 & _ & _ & _ & _ & _ & _ & _ & _ & _ & _
        & Hr1 & Hresp1 & _ & Hs1 & _).
  destruct (video_success_inv lib cfg env2 r2 _ Hok2)
    as (? & ? & ? & ? & ? & out2 & c2 & bs2 & _ & _ & _ & _ & _ & _ & _ & _ & _ & _
        & Hr2 & Hresp2 & _ & Hs2 & _).
  cbv zeta in *.
  assert (Hkeys : video_key c2 bs2 <> video_key c1 bs1).
  { intros Hkey. apply video_key_inj in Hkey as [_ ->];
      [congruence | by eapply rand_Read_length | by eapply rand_Read_length]. }
  exists (video_key c1 bs1), {| ObjBody := out1; ObjContentType := "video/mp4" |}.
  rewrite Hresp1, Hresp2, Hs2, Hs1. unfold response_video_url. simpl.
  split; [reflexivity|]. split; [apply lookup_insert_eq|]. split.
  - rewrite lookup_insert_ne by congruence. apply lookup_insert_eq.
  - intros H. apply (inj Some), video_url_inj in H. done.
Qed.

Lemma X17_second_upload_keeps_first_object_witness :
  let o1 := handlerUploadVideo Demo.lib Demo.cfg Demo.env_ok
              (Demo.request Demo.id1 Demo.alice 1000 "video" "video/mp4") Demo.w0 in
  let o2 := handlerUploadVideo Demo.lib Demo.cfg Demo.env_ok2
              (Demo.request Demo.id1 Demo.alice 1000 "video" "video/mp4") o1.1 in
  exists (key : string) (obj : Object),
    response_video_url o1.2 = Some (video_url Demo.cfg key)
    /\ s3 o1.1 !! (s3Bucket Demo.cfg, key) = Some obj
    /\ s3 o2.1 !! (s3Bucket Demo.cfg, key) = Some obj
    /\ response_video_url o2.2 <> response_video_url o1.2.
Proof.
  apply (X17_second_upload_keeps_first_object Demo.lib Demo.cfg Demo.env_ok Demo.env_ok2
           (Demo.request Demo.id1 Demo.alice 1000 "video" "video/mp4")
           (Demo.request Demo.id1 Demo.alice 1000 "video" "video/mp4") Demo.w0).
  - vm_compute. reflexivity.
  - vm_compute. reflexivity.
  - vm_compute. discriminate.
Defined.

Lemma world_eq (d d' : gmap UUID Video) (k k' : gmap string (list byte))
    (s s' : gmap (string * string) Object) :
  d = d' -> k = k' -> s = s' ->
  {| db := d; disk := k; s3 := s |} = {| db := d'; disk := k'; s3 := s' |}.
Proof. by intros -> -> ->. Qed.

(** X19. Repeating a successful upload with the same outcomes of the
    environment, the same random bytes among them, changes nothing
    further: the second run answers as the first and leaves the record
    store, the disk and the object store as the first run left them. *)
Theorem X19_upload_repeatable
    (ep : Endpoint) (lib : Lib) (cfg : apiConfig) (env : Env) (r : Request) (w : World) :
  let o1 := handle ep lib cfg env r w in
  StatusCode o1.2 = StatusOK ->
  handle ep lib cfg env r o1.1 = o1.
Proof.
  destruct ep; unfold handle; cbv zeta.
  - remember (handlerUploadVideo lib cfg env r w) as o1 eqn:Ho1. symmetry in Ho1.
    set (again := handlerUploadVideo lib cfg env r o1.1). revert Ho1.
    unfold handlerUploadVideo, run, handlerUploadVideo_body,
      processVideoForFastStart, exec_ffmpeg,
      os_CreateTemp, os_Create, io_Copy, os_Open, s3_PutObject,
      db_GetVideo, db_UpdateVideo,
      orelse, bind, pure, ret, get_world, modify, defer,
      respondWithError, respondWithJSON, FormFile, ParseMultipartForm.
    explore; intros <-; simpl; intros Hok; try status_neq.
    subst again. unfold set_disk, set_db, set_s3; simpl.
    match goal with
    | Ho : db _ !! ?a = Some ?v, Hu : ¬ UserID ?v <> ?u |- _ =>
        assert (Hown : UserID v = u) by (by apply dec_stable);
        destruct (decide (a = ID v)) as [Hid|Hid]
    end.
    all: unfold_handlers.
    all: repeat (simpl;
           match goal with
           | H : ?x = _ |- context [?x] => rewrite H
           | |- context [<[?i := ?x]> ?m !! ?i] => rewrite (lookup_insert_eq m i x)
           | |- context [delete ?i ?m !! ?i] => rewrite (lookup_delete_eq m i)
           | Hne : ?i <> ?j |- context [<[?j := ?x]> ?m !! ?i] =>
               rewrite (lookup_insert_ne m j i x) by done
           | |- context [decide (?a <> ?b)] =>
               destruct (decide (a <> b)) as [Hx|Hx];
               [exfalso; apply Hx; simpl; congruence | clear Hx]
           end).
    all: simpl; unfold set_disk, set_db, set_s3; simpl.
    all: match goal with
         | Hl : <[_ := _]> _ !! _ = Some _ |- _ =>
             rewrite lookup_insert_eq in Hl; injection Hl as <-
         end.
    all: apply pair_equal_spec; split; [|done].
    all: apply world_eq; [by rewrite insert_insert_eq | | by rewrite insert_insert_eq].
    all: match goal with
         | Ht : CreateTemp_result _ = Ok ?name |- _ =>
             apply map_eq; intros path;
             destruct (decide (path = name)) as [->|?];
             [|destruct (decide (path = (name +:+ ".processed")%string)) as [->|?]];
             by simplify_map_eq
         end.
  - remember (handlerUploadThumbnail lib cfg env r w) as o1 eqn:Ho1. symmetry in Ho1.
    set (again := handlerUploadThumbnail lib cfg env r o1.1). revert Ho1.
    unfold handlerUploadThumbnail, run, handlerUploadThumbnail_body,
      os_CreateTemp, os_Create, io_Copy, os_Open, s3_PutObject,
      db_GetVideo, db_UpdateVideo,
      orelse, bind, pure, ret, get_world, modify, defer,
      respondWithError, respondWithJSON, FormFile, ParseMultipartForm.
    explore; intros <-; simpl; intros Hok; try status_neq.
    all: subst again; unfold set_disk, set_db, set_s3; simpl.
    all: match goal with
         | Ho : db _ !! ?a = Some ?v, Hu : ¬ UserID ?v <> ?u |- _ =>
             assert (Hown : UserID v = u) by (by apply dec_stable);
             destruct (decide (a = ID v)) as [Hid|Hid]
         end.
    all: unfold_handlers.
    all: repeat (simpl;
           match goal with
           | H : ?x = _ |- context [?x] => rewrite H
           | |- context [<[?i := ?x]> ?m !! ?i] => rewrite (lookup_insert_eq m i x)
           | Hne : ?i <> ?j |- context [<[?j := ?x]> ?m !! ?i] =>
               rewrite (lookup_insert_ne m j i x) by done
           | |- context [decide (?a <> ?b)] =>
               destruct (decide (a <> b)) as [Hx|Hx];
               [exfalso; apply Hx; simpl; congruence | clear Hx]
           end).
    all: simpl; unfold set_disk, set_db, set_s3; simpl.
    all: apply pair_equal_spec; split; [|done].
    all: apply world_eq; [by rewrite insert_insert_eq | | done].
    all: by rewrite !insert_insert_eq.
Qed.

Lemma X19_upload_repeatable_witness :
  let o1 := handle UploadVideo Demo.lib Demo.cfg Demo.env_ok
              (Demo.request Demo.id1 Demo.alice 1000 "video" "video/mp4") Demo.w0 in
  handle UploadVideo Demo.lib Demo.cfg Demo.env_ok
    (Demo.request Demo.id1 Demo.alice 1000 "video" "video/mp4") o1.1 = o1.
Proof.
  apply (X19_upload_repeatable UploadVideo Demo.lib Demo.cfg Demo.env_ok
           (Demo.request Demo.id1 Demo.alice 1000 "video" "video/mp4") Demo.w0).
  vm_compute. reflexivity.
Defined.

(** ** Frames of the usual shapes *)

(** X18. At every scale up to 8K, a frame of exactly 16:9 is classified
    [landscape], a frame of exactly 9:16 [portrait] and a square frame
    [other]: for [1 <= k <= 480] this holds of [16k x 9k] (up to
    7680x4320), [9k x 16k] and [k x k]. *)
Theorem X18_exact_shapes_at_every_scale (k : Z) :
  1 <= k <= 480 ->
  getVideoAspectRatio (one_stream (16 * k) (9 * k)) = Ok "landscape"%string
  /\ getVideoAspectRatio (one_stream (9 * k) (16 * k)) = Ok "portrait"%string
  /\ getVideoAspectRatio (one_stream k k) = Ok "other"%string.
Proof.
  intros Hk.
  assert (Hall : forallb scale_ok (seq 1 480) = true) by (vm_compute; reflexivity).
  rewrite forallb_forall in Hall.
  specialize (Hall (Z.to_nat k)). unfold scale_ok in Hall.
  rewrite Z2Nat.id in Hall by lia.
  assert (Hin : In (Z.to_nat k) (seq 1 480)) by (apply in_seq; lia).
  specialize (Hall Hin).
  destruct (getVideoAspectRatio (one_stream (16 * k) (9 * k))) as [a|]; [|done].
  destruct (getVideoAspectRatio (one_stream (9 * k) (16 * k))) as [b|]; [|done].
  destruct (getVideoAspectRatio (one_stream k k)) as [c|]; [|done].
  apply andb_prop in Hall as [[Ha Hb]%andb_prop Hc].
  apply bool_decide_eq_true in Ha, Hb, Hc. by subst.
Qed.

Lemma X18_exact_shapes_at_every_scale_witness :
  getVideoAspectRatio (one_stream (16 * 240) (9 * 240)) = Ok "landscape"%string
  /\ getVideoAspectRatio (one_stream (9 * 240) (16 * 240)) = Ok "portrait"%string
  /\ getVideoAspectRatio (one_stream 240 240) = Ok "other"%string.
Proof. apply (X18_exact_shapes_at_every_scale 240). lia. Defined.
